(** * Pooling of sample replicates: destination allocation and worklist commands

    A shallow embedding of [pyTecanFluent/Pool.py] (functions [add_dest],
    [check_rack_labels], [pool_samples] and the part of [main] that chains
    them), with the properties the design document states about them. *)

From Stdlib Require Import ZArith QArith Qround String Ascii List Lia Lqa.
From stdpp Require Import base decidable option list sorting gmap strings.

Local Open Scope Z_scope.

(** ** Python values and effects *)

(** The exceptions the modelled code can raise. *)
Inductive PyError : Type :=
| ValueError (msg : string)
| NameError (name : string)
| ZeroDivisionError
| KeyError (key : string)
| AttributeError (msg : string).

Inductive result (A : Type) : Type :=
| Ok (a : A)
| Raise (e : PyError).
Arguments Ok {A} a.
Arguments Raise {A} e.

(** A computation writes lines to [sys.stderr] and then returns or raises. *)
Definition Py (A : Type) : Type := (list string * result A)%type.

Definition ret {A} (a : A) : Py A := ([], Ok a).
Definition raise {A} (e : PyError) : Py A := ([], Raise e).
Definition print_stderr (msg : string) : Py unit := ([msg], Ok tt).
Definition bind {A B} (m : Py A) (f : A -> Py B) : Py B :=
  match m with
  | (out, Ok a) => let '(out', r) := f a in (out ++ out', r)
  | (out, Raise e) => (out, Raise e)
  end.

Notation "'let*' x ':=' m 'in' k" := (bind m (fun x => k))
  (at level 10, x name, m at level 100, k at level 200, only parsing).

Definition stderr {A} (m : Py A) : list string := fst m.
Definition outcome {A} (m : Py A) : result A := snd m.

(** [round(q, 0)] of Python 3: to the nearest integer, ties to the even one.
    Python divides two ints into a binary64 float; the model keeps the exact
    rational.  For row counts and well counts below [2^52] the float and the
    rational agree on every comparison made below. *)
Definition py_round (q : Q) : Z :=
  let f := Qfloor q in
  match Qcompare (q - inject_Z f) (1 # 2) with
  | Lt => f
  | Gt => f + 1
  | Eq => if Z.even f then f else f + 1
  end.

(** [a / b] on two Python ints, [b] non-zero. *)
Definition py_truediv (a b : Z) : Q := (inject_Z a / inject_Z b)%Q.

(** The double quote character, for messages. *)
Definition dq : string := String "034"%char EmptyString.

(** ** Data frames *)

(** One row of the sample table as [sample2df] returns it.  The source
    addresses the five columns by the labels given on the command line
    ([sample_col], [include_col], [labware_name_col], [labware_type_col],
    [position_col]); a field holds the value of the column in that role, and
    is called after the default label of [parse_args] ([Sample], [Call],
    [labware_name], [labware_type], [Well]).  [Well] is already converted to
    a position.  Which label a column carries matters in [check_rack_labels]
    alone, and is modelled there. *)
Record Row : Type := mkRow {
  Sample : string;
  Call : string;
  labware_name : string;
  labware_type : string;
  Well : Z
}.

(** A row of the frame [add_dest] returns: the sample row joined with the
    three destination columns. *)
Record PoolRow : Type := mkPoolRow {
  source : Row;
  TECAN_dest_labware_name : string;
  TECAN_dest_labware_type : string;
  TECAN_dest_target_position : Z
}.

Definition sample_of (r : PoolRow) : string := Sample (source r).

(** ** Worklist commands ([Fluent.Comment], [Aspirate], [Dispense], [Waste],
    [Flush]) *)

Record Transfer : Type := mkTransfer {
  RackLabel : string;
  RackType : string;
  Position : Z;
  Volume : Q;
  LiquidClass : string
}.

Inductive Command : Type :=
| Comment (text : string)
| Aspirate (t : Transfer)
| Dispense (t : Transfer)
| Waste
| Flush.

(** ** [add_dest] *)

(** Lines 364-368: the [try]/[except KeyError] around [samples[sample]].
    Returns the raw [dest_position] and the dictionary afterwards. *)
Definition lookup_or_mint (samples : gmap string Z) (sample : string)
  : Z * gmap string Z :=
  match samples !! sample with
  | Some dest_position => (dest_position, samples)
  | None =>
      let dest_position := Z.of_nat (size samples) + 1 in
      (dest_position, <[sample := dest_position]> samples)
  end.

(** Line 370: [positions if dest_position % positions == 0
    else dest_position % positions]. *)
Definition dest_location (positions dest_position : Z) : Z :=
  if dest_position mod positions =? 0 then positions
  else dest_position mod positions.

Definition warning_multiple_plates : string :=
  "WARNING: Not enough wells for the number of samples. Using multiple destination plates"%string.

Definition msg_no_wells (dest_type : string) : string :=
  ("RackType has no " ++ dq ++ "wells" ++ dq ++ " value: " ++ dq ++ dest_type ++ dq)%string.

Section AddDest.

(** [Labware.utils().get_wells]: the number of wells of a labware type, or
    [None]. *)
Variable get_wells : string -> option Z.

(** Lines 361-376: the loop over [enumerate(df.loc[:,sample_col])].  [i] is
    the index of the first row of [rows].  When more than one plate is
    needed the body reads the name [orig_dest_labware], which is bound
    nowhere in the module: the read raises [NameError]. *)
Fixpoint fill_dest (positions n_dest_plates dest_start : Z)
    (dest_labware dest_type : string)
    (samples : gmap string Z) (i : Z) (rows : list Row)
  : result (list PoolRow) :=
  match rows with
  | [] => Ok []
  | row :: rows' =>
      let '(dest_position, samples) := lookup_or_mint samples (Sample row) in
      let dest_position := dest_location positions dest_position in
      if 1 <? n_dest_plates then
        let x := py_round (py_truediv (i + dest_start) positions + (499 # 1000)) in
        Raise (NameError "orig_dest_labware")
      else
        match fill_dest positions n_dest_plates dest_start
                dest_labware dest_type samples (i + 1) rows' with
        | Ok out => Ok (mkPoolRow row dest_labware dest_type dest_position :: out)
        | Raise e => Raise e
        end
  end.

Definition add_dest (df : list Row) (dest_labware dest_type : string)
    (dest_start : Z) : Py (list PoolRow) :=
  let* positions :=
    match get_wells dest_type with
    | None => raise (ValueError (msg_no_wells dest_type))
    | Some positions => ret positions
    end in
  let* n_dest_plates :=
    (if positions =? 0 then raise ZeroDivisionError
     else ret (py_round (py_truediv (Z.of_nat (length df)) positions + (1 # 2)))) in
  let* _ :=
    (if 1 <? n_dest_plates then print_stderr warning_multiple_plates
     else ret tt) in
  ([], fill_dest positions n_dest_plates dest_start dest_labware dest_type ∅ 0 df).

End AddDest.

(** ** [check_rack_labels] *)

(** [y.replace('.', '_')]: both patterns are one character long, so the
    replacement acts on each character of [y] separately. *)
Fixpoint replace_dot (y : string) : string :=
  match y with
  | EmptyString => EmptyString
  | String c y' => String (if Ascii.eqb c "."%char then "_"%char else c) (replace_dot y')
  end.

Definition set_labware_name (v : string) (r : PoolRow) : PoolRow :=
  mkPoolRow (mkRow (Sample (source r)) (Call (source r)) v
                   (labware_type (source r)) (Well (source r)))
            (TECAN_dest_labware_name r) (TECAN_dest_labware_type r)
            (TECAN_dest_target_position r).

Definition set_dest_labware_name (v : string) (r : PoolRow) : PoolRow :=
  mkPoolRow (source r) v (TECAN_dest_labware_type r) (TECAN_dest_target_position r).

(** The two iterations of [for x in cols], column [labware_name] first, on a
    frame whose column [labware_name] holds the source labware names (the
    default of [--sample-labware-name]). *)
Definition check_rack_labels (df_samp : list PoolRow) : list PoolRow :=
  let df_samp :=
    map (fun r => set_labware_name (replace_dot (labware_name (source r))) r) df_samp in
  map (fun r => set_dest_labware_name (replace_dot (TECAN_dest_labware_name r)) r) df_samp.

(** [check_rack_labels] on a frame whose columns carry any labels.  The five
    columns of the sample frame, by role: *)
Inductive Role : Type := RSample | RCall | RLabwareName | RLabwareType | RWell.

(** [y.replace('.', '_')] on the values of one column of strings. *)
Definition replace_role (role : Role) (row : Row) : Row :=
  match role with
  | RSample => mkRow (replace_dot (Sample row)) (Call row) (labware_name row)
                     (labware_type row) (Well row)
  | RCall => mkRow (Sample row) (replace_dot (Call row)) (labware_name row)
                   (labware_type row) (Well row)
  | RLabwareName => mkRow (Sample row) (Call row) (replace_dot (labware_name row))
                          (labware_type row) (Well row)
  | RLabwareType => mkRow (Sample row) (Call row) (labware_name row)
                          (replace_dot (labware_type row)) (Well row)
  | RWell => row
  end.

Definition map_source (f : Row -> Row) (r : PoolRow) : PoolRow :=
  mkPoolRow (f (source r)) (TECAN_dest_labware_name r) (TECAN_dest_labware_type r)
            (TECAN_dest_target_position r).

(** Lines 279-282 on the frame [add_dest] returns.  [role_of] tells which
    of the five sample columns carries a label, if any.  [df_samp[x]] raises
    [KeyError] for a label no column carries; the positions are numbers,
    which have no [replace], so a position column under that label raises
    [AttributeError] as soon as the frame has a row.  The second label is
    that of a column [add_dest] has added. *)
Definition check_rack_labels_frame (role_of : string -> option Role)
    (df_samp : list PoolRow) : result (list PoolRow) :=
  let dest_pass :=
    map (fun r => set_dest_labware_name (replace_dot (TECAN_dest_labware_name r)) r) in
  match role_of "labware_name" with
  | None => Raise (KeyError "labware_name")
  | Some RWell =>
      match df_samp with
      | [] => Ok (dest_pass [])
      | _ :: _ => Raise (AttributeError "'int' object has no attribute 'replace'")
      end
  | Some role => Ok (dest_pass (map (map_source (replace_role role)) df_samp))
  end.

(** ** [pool_samples] *)

(** [Series.unique()]: the distinct values in order of first appearance. *)
Fixpoint unique (l : list string) : list string :=
  match l with
  | [] => []
  | x :: l' => x :: filter (fun y => y <> x) (unique l')
  end.

Section PoolSamples.

(** [df.sort_values('TECAN_dest_target_position')].  pandas sorts with
    [kind='quicksort'] by default, which is not stable: the order of rows
    with equal keys is not fixed by the source, so the sort is a parameter.
    The theorems below assume only that it returns a permutation of the
    frame in ascending key order. *)
Variable sort_values : list PoolRow -> list PoolRow.

Variables (volume : Q) (liq_cls : string) (new_tips : bool).

(** Lines 404-426: the body of the loop over the replicates of a sample. *)
Definition replicate_commands (r : PoolRow) : list Command :=
  let asp := mkTransfer (labware_name (source r)) (labware_type (source r))
                        (Well (source r)) volume liq_cls in
  let disp := mkTransfer (TECAN_dest_labware_name r) (TECAN_dest_labware_type r)
                         (TECAN_dest_target_position r) volume liq_cls in
  [Aspirate asp; Dispense disp; if new_tips then Waste else Flush].

(** Lines 401-430: the body of the loop over the samples. *)
Definition sample_commands (df : list PoolRow) (sample : string) : list Command :=
  let df_sub := filter (fun r => sample_of r = sample) df in
  flat_map replicate_commands df_sub ++ (if new_tips then [] else [Waste]).

(** [gwl] is the list of commands added so far; [gwl.add] appends. *)
Definition pool_samples (df : list PoolRow) (gwl : list Command) : list Command :=
  let gwl := gwl ++ [Comment "Sample pooling"] in
  let df := sort_values df in
  gwl ++ flat_map (sample_commands df) (unique (map sample_of df)).

End PoolSamples.

(** ** [main], from the filter on the include column to the call of
    [pool_samples] *)

Inductive PyVal : Type :=
| PyInt (n : Z)
| PyStr (s : string)
| PyNone.

Record Args : Type := mkArgs {
  dest_name : string;
  dest_type : string;
  dest_start : Z;
  arg_volume : Q;
  liq_cls_arg : string;
  new_tips_arg : bool;
  sample_col : string;
  include_col : string;
  sample_labware_name : string;
  sample_labware_type : string;
  position_col : string
}.

(** The column of the sample frame that carries the label [x].  The frame
    handed to [main] has the five columns under the labels of [args]; the
    model is of runs in which these five labels and the three
    [TECAN_dest_*] labels are pairwise different, so that a label names at
    most one column. *)
Definition column_role (args : Args) (x : string) : option Role :=
  if decide (x = sample_col args) then Some RSample
  else if decide (x = include_col args) then Some RCall
  else if decide (x = sample_labware_name args) then Some RLabwareName
  else if decide (x = sample_labware_type args) then Some RLabwareType
  else if decide (x = position_col args) then Some RWell
  else None.

Section Main.

Variable get_wells : string -> option Z.
(** [gwl.db.get_labware] and [gwl.db.get_labware_wells], of [Fluent.db]. *)
Variable get_labware : string -> result unit.
Variable get_labware_wells : string -> result PyVal.
Variable sort_values : list PoolRow -> list PoolRow.

Definition lift {A} (r : result A) : Py A := ([], r).

(** [n_wells == '384'] *)
Definition is_str_384 (n_wells : PyVal) : bool :=
  match n_wells with
  | PyStr s => String.eqb s "384"
  | _ => false
  end.

(** Lines 142-176.  [reorder_384well] is neither defined nor imported in the
    module, so the call on line 163 raises [NameError].  [pool_samples] reads
    the sample columns under the labels of [args], so by role. *)
Definition main (args : Args) (df_samp : list Row) : Py (list Command) :=
  let df_samp :=
    filter (fun r => Call r ∈ ["success"; "pass"; "include"]) df_samp in
  let* df_samp := add_dest get_wells df_samp (dest_name args) (dest_type args)
                           (dest_start args) in
  let* df_samp := lift (check_rack_labels_frame (column_role args) df_samp) in
  let gwl := [] in
  let* _ := lift (get_labware (dest_type args)) in
  let* n_wells := lift (get_labware_wells (dest_type args)) in
  let* df_samp :=
    (if is_str_384 n_wells then raise (NameError "reorder_384well")
     else ret df_samp) in
  ret (pool_samples sort_values (arg_volume args) (liq_cls_arg args)
                    (new_tips_arg args) df_samp gwl).

End Main.

(** ** Observations used in the statements *)

(** The Sample Register: lines 361-368 run over a whole column of names,
    giving the raw [dest_position] minted or found for each row in turn. *)
Fixpoint sample_register (samples : gmap string Z) (names : list string) : list Z :=
  match names with
  | [] => []
  | sample :: names' =>
      let '(dest_position, samples) := lookup_or_mint samples sample in
      dest_position :: sample_register samples names'
  end.

(** The row [add_dest] writes for a sample row whose raw position is [p]
    (line 376, joined with the sample row on line 380). *)
Definition placed (positions : Z) (dest_labware dest_type : string) (row : Row)
    (p : Z) : PoolRow :=
  mkPoolRow row dest_labware dest_type (dest_location positions p).

(** The three destination columns of a row. *)
Definition assignment (r : PoolRow) : string * string * Z :=
  (TECAN_dest_labware_name r, TECAN_dest_labware_type r, TECAN_dest_target_position r).

Definition position_le (r1 r2 : PoolRow) : Prop :=
  TECAN_dest_target_position r1 <= TECAN_dest_target_position r2.

Global Instance position_le_dec : RelDecision position_le.
Proof. intros r1 r2. unfold position_le. apply _. Defined.

(** Rows of one sample share their destination position. *)
Definition colocated (df : list PoolRow) : Prop :=
  Forall (fun r1 => Forall (fun r2 =>
    sample_of r1 = sample_of r2 ->
    TECAN_dest_target_position r1 = TECAN_dest_target_position r2) df) df.

(** Rows of different samples have different destination positions. *)
Definition slot_unique (df : list PoolRow) : Prop :=
  Forall (fun r1 => Forall (fun r2 =>
    sample_of r1 <> sample_of r2 ->
    TECAN_dest_target_position r1 <> TECAN_dest_target_position r2) df) df.

(** The Aspirate/Dispense pairs of a worklist: every Aspirate whose next
    command is a Dispense, with that Dispense, in order. *)
Fixpoint transfers (cmds : list Command) : list (Transfer * Transfer) :=
  match cmds with
  | [] => []
  | c :: rest =>
      match c, rest with
      | Aspirate a, Dispense d :: _ => (a, d) :: transfers rest
      | _, _ => transfers rest
      end
  end.

(** The pair of transfers a replicate row asks for. *)
Definition row_transfer (volume : Q) (liq_cls : string) (r : PoolRow)
  : Transfer * Transfer :=
  (mkTransfer (labware_name (source r)) (labware_type (source r))
              (Well (source r)) volume liq_cls,
   mkTransfer (TECAN_dest_labware_name r) (TECAN_dest_labware_type r)
              (TECAN_dest_target_position r) volume liq_cls).

Inductive Kind : Type := KComment | KAspirate | KDispense | KWaste | KFlush.

Global Instance Kind_eq_dec : EqDecision Kind.
Proof. solve_decision. Defined.

Definition kind (c : Command) : Kind :=
  match c with
  | Comment _ => KComment
  | Aspirate _ => KAspirate
  | Dispense _ => KDispense
  | Waste => KWaste
  | Flush => KFlush
  end.

Definition count_kind (k : Kind) (cmds : list Command) : nat :=
  length (filter (fun c => kind c = k) cmds).

(** The rows of a frame that belong to a sample. *)
Definition replicates (df : list PoolRow) (sample : string) : list PoolRow :=
  filter (fun r => sample_of r = sample) df.

(** The rows in the order the two loops of [pool_samples] reach them, for a
    frame already sorted. *)
Definition visit_order (df : list PoolRow) : list PoolRow :=
  flat_map (replicates df) (unique (map sample_of df)).



(** No ['.'] among the characters of a string. *)
Fixpoint no_dot (y : string) : Prop :=
  match y with
  | EmptyString => True
  | String c y' => c <> "."%char /\ no_dot y'
  end.

(** The formulas of the design document for a sample of ordinal [n] on plates
    of [capacity] wells filled from offset [s]; written from the document, to
    be compared with [add_dest]. *)
Definition spec_target_position (capacity s n : Z) : Z :=
  ((n - 1 + (s - 1)) mod capacity) + 1.

Definition spec_plate_instance (capacity s n : Z) : Z :=
  ((n - 1 + (s - 1)) / capacity) + 1.

(** ** A concrete sort and concrete frames *)

(** Insertion sort on the destination position, keeping rows with equal
    positions in their order: one admissible behaviour of [sort_values]. *)
Fixpoint insert_row (r : PoolRow) (l : list PoolRow) : list PoolRow :=
  match l with
  | [] => [r]
  | x :: l' =>
      if decide (position_le r x) then r :: x :: l' else x :: insert_row r l'
  end.

Definition insertion_sort_values (df : list PoolRow) : list PoolRow :=
  foldr insert_row [] df.



(** A labware table with a 4-well and a 96-well type. *)
Definition wells_table (labware : string) : option Z :=
  if String.eqb labware "4 Well Test Plate" then Some 4
  else if String.eqb labware "96 Well Eppendorf TwinTec PCR" then Some 96
  else None.

Definition pcr96 : string := "96 Well Eppendorf TwinTec PCR".

Definition sample_row (sample : string) (well : Z) : Row :=
  mkRow sample "pass" "PCR.plate.1" pcr96 well.

(** The rows of the example scenario: samples A, B, A. *)
Definition rows_ABA : list Row :=
  [sample_row "A" 1; sample_row "B" 2; sample_row "A" 3].

Definition rows_ABCD : list Row :=
  [sample_row "A" 1; sample_row "B" 2; sample_row "C" 3; sample_row "D" 4].

Definition rows_ABCDE : list Row :=
  [sample_row "A" 1; sample_row "B" 2; sample_row "C" 3; sample_row "D" 4;
   sample_row "E" 5].

(** Rows of samples b, a, b, c, a, and the frame [add_dest] returns for them
    on the 96-well type. *)
Definition rows_BABCA : list Row :=
  [sample_row "b" 1; sample_row "a" 2; sample_row "b" 3; sample_row "c" 4;
   sample_row "a" 5].

Definition frame_BABCA : list PoolRow :=
  Eval vm_compute in
    match outcome (add_dest wells_table rows_BABCA "Pooled DNA plate" pcr96 1) with
    | Ok out => out
    | Raise _ => []
    end.

(** One sample with three replicates, as [add_dest] places it. *)
Definition three_replicates : list PoolRow :=
  [mkPoolRow (sample_row "A" 1) "Pooled DNA plate" pcr96 1;
   mkPoolRow (sample_row "A" 2) "Pooled DNA plate" pcr96 1;
   mkPoolRow (sample_row "A" 3) "Pooled DNA plate" pcr96 1].

Definition frame_ABA : list PoolRow :=
  [mkPoolRow (sample_row "A" 1) "Pooled DNA plate" pcr96 1;
   mkPoolRow (sample_row "B" 2) "Pooled DNA plate" pcr96 2;
   mkPoolRow (sample_row "A" 3) "Pooled DNA plate" pcr96 1].


Definition default_args : Args :=
  mkArgs "Pooled DNA plate" pcr96 1 30 "Water Free Single No-cLLD" false
         "Sample" "Call" "labware_name" "labware_type" "Well".

(** A run whose destination name has dots, and one whose destination type is
    not in the labware table. *)
Definition dotted_args : Args :=
  mkArgs "Pooled.DNA.plate" pcr96 1 30 "Water Free Single No-cLLD" false
         "Sample" "Call" "labware_name" "labware_type" "Well".

Definition unknown_type_args : Args :=
  mkArgs "Pooled DNA plate" "1536 Well Unlisted" 1 30 "Water Free Single No-cLLD" false
         "Sample" "Call" "labware_name" "labware_type" "Well".

(** [--sample-labware-name plate --sample-labware-type labware_name], and
    [--sample-labware-name plate] alone. *)
Definition renamed_columns_args : Args :=
  mkArgs "Pooled DNA plate" pcr96 1 30 "Water Free Single No-cLLD" false
         "Sample" "Call" "plate" "labware_name" "Well".

Definition renamed_name_args : Args :=
  mkArgs "Pooled DNA plate" pcr96 1 30 "Water Free Single No-cLLD" false
         "Sample" "Call" "plate" "labware_type" "Well".

(** The run of the model on the example rows: a labware database that knows
    the destination type and reports 96 wells. *)
Definition example_run (args : Args) (df : list Row) : Py (list Command) :=
  main wells_table (fun _ => Ok tt) (fun _ => Ok (PyStr "96"))
       insertion_sort_values args df.

Definition worklist_ABA_dotted : list Command :=
  Eval vm_compute in
    match outcome (example_run dotted_args rows_ABA) with
    | Ok cmds => cmds
    | Raise _ => []
    end.

(** The dictionary [samples] after the names of [seen] were registered in
    that order: name number [k] (from 0) holds ordinal [k + 1]. *)
Definition reg_inv (samples : gmap string Z) (seen : list string) : Prop :=
  NoDup seen /\ size samples = length seen /\
  forall s p, samples !! s = Some p <->
              exists k : nat, seen !! k = Some s /\ p = Z.of_nat k + 1.

(** ** The loaders: choice of the reader, the include column *)

(** [s.endswith(suffix)]: some tail of [s] is [suffix]. *)
Fixpoint endswith (s suffix : string) : bool :=
  String.eqb s suffix ||
  match s with
  | EmptyString => false
  | String _ s' => endswith s' suffix
  end.

(** [str.lower()] on the ASCII letters.  The one other character Python
    lowers to an ASCII letter is the Kelvin sign, to [k], a letter of none of
    the format names compared below. *)
Definition lower_char (c : ascii) : ascii :=
  let n := nat_of_ascii c in
  if (65 <=? n)%nat && (n <=? 90)%nat then ascii_of_nat (n + 32) else c.

Fixpoint lower (s : string) : string :=
  match s with
  | EmptyString => EmptyString
  | String c s' => String (lower_char c) (lower s')
  end.

(** The pandas reader a loader ends up calling. *)
Inductive Reader : Type :=
| ReadCsv (sep : ascii)
| ReadExcel.

Definition tab_char : ascii := "009"%char.

(** Lines 225-233 of [sample2df]. *)
Definition sample_file_format (samplefile : string) (file_format : option string)
  : option string :=
  match file_format with
  | None =>
      if endswith samplefile ".csv" then Some "csv"%string
      else if endswith samplefile ".txt" then Some "tab"%string
      else if endswith samplefile ".xls" || endswith samplefile ".xlsx"
           then Some "excel"%string
      else None
  | Some file_format => Some (lower file_format)
  end.

(** Lines 294-302 of [map2df]: the last test is on ['xlsx'], without the dot. *)
Definition map_file_format (mapfile : string) (file_format : option string)
  : option string :=
  match file_format with
  | None =>
      if endswith mapfile ".csv" then Some "csv"%string
      else if endswith mapfile ".txt" then Some "tab"%string
      else if endswith mapfile ".xls" || endswith mapfile "xlsx"
           then Some "excel"%string
      else None
  | Some file_format => Some (lower file_format)
  end.

(** Lines 236-244 and 305-313: the dispatch on the format. *)
Definition reader_for (msg : string) (file_format : option string) : result Reader :=
  match file_format with
  | Some f =>
      if String.eqb f "csv" then Ok (ReadCsv ","%char)
      else if String.eqb f "tab" then Ok (ReadCsv tab_char)
      else if String.eqb f "excel" then Ok ReadExcel
      else Raise (ValueError msg)
  | None => Raise (ValueError msg)
  end.

(** The reader [sample2df] calls, or the error it raises before reading. *)
Definition sample2df_reader (samplefile : string) (file_format : option string)
  : result Reader :=
  reader_for "Sample file is not in a usable format"
             (sample_file_format samplefile file_format).

(** The same for [map2df], which returns [None] at once without a file. *)
Definition map2df_reader (mapfile : option string) (file_format : option string)
  : option (result Reader) :=
  match mapfile with
  | None => None
  | Some mapfile =>
      Some (reader_for "Mapping file is not in a usable format"
                       (map_file_format mapfile file_format))
  end.

(** [check_include_column].  The message of the [assert] reads [msg], a local
    of [sample2df] that is not in scope here: when the test fails, building
    the message raises [NameError]. *)
Definition psbl_vals : list string := ["success"; "include"; "pass"; "fail"; "skip"].

Definition check_include_column (x : string) : result unit :=
  if decide (x ∈ psbl_vals) then Ok tt else Raise (NameError "msg").

(** The test of line 143 in [main]. *)
Definition included (r : Row) : Prop := Call r ∈ ["success"; "pass"; "include"].

(** ** [filter_map] *)

(** A row of the pooled table [filter_map] builds from the sample frame. *)
Record PostPool : Type := mkPostPool {
  pooled_sample : string;
  TECAN_postPool_labware_name : string;
  TECAN_postPool_labware_type : string;
  TECAN_postPool_target_position : Z
}.

Global Instance PostPool_eq_dec : EqDecision PostPool.
Proof. solve_decision. Defined.

(** [DataFrame.drop_duplicates(subset=...)], keeping the first row of each
    key. *)
Fixpoint drop_duplicates {A K : Type} `{EqDecision K} (key : A -> K) (l : list A)
  : list A :=
  match l with
  | [] => []
  | x :: l' => x :: filter (fun y => key y <> key x) (drop_duplicates key l')
  end.

(** Lines 438-446: the four columns, without repeated rows. *)
Definition post_pool (r : PoolRow) : PostPool :=
  mkPostPool (sample_of r) (TECAN_dest_labware_name r)
             (TECAN_dest_labware_type r) (TECAN_dest_target_position r).

Section FilterMap.

(** The mapping table: the column [#SampleID] and the other columns. *)
Variable Columns : Type.

Record MapRow : Type := mkMapRow {
  SampleID : string;
  columns : Columns
}.

(** [pd.merge(df_map, df_samp, how='inner', left_on=['#SampleID'],
    right_on=[sample_col])]: the rows of the left table in order, each
    with the right rows of its key. *)
Definition merge_inner (df_map : list MapRow) (df_samp : list PostPool)
  : list (MapRow * PostPool) :=
  flat_map (fun m => map (fun d => (m, d))
                         (filter (fun d => pooled_sample d = SampleID m) df_samp))
           df_map.

Definition filter_map (df_map : list MapRow) (df_samp : list PoolRow)
  : list (MapRow * PostPool) :=
  let df_samp := drop_duplicates (fun d => d) (map post_pool df_samp) in
  let df_map := drop_duplicates SampleID df_map in
  merge_inner df_map df_samp.

End FilterMap.

Arguments SampleID {Columns} _.
Arguments columns {Columns} _.
Arguments mkMapRow {Columns} _ _.
Arguments merge_inner {Columns} _ _.
Arguments filter_map {Columns} _ _.

(** ** More concrete runs *)

Definition small_plate_args : Args :=
  mkArgs "Pooled DNA plate" "4 Well Test Plate" 1 30 "Water Free Single No-cLLD" false
         "Sample" "Call" "labware_name" "labware_type" "Well".


Definition worklist_ABA : list Command :=
  Eval vm_compute in
    match outcome (example_run default_args rows_ABA) with
    | Ok cmds => cmds
    | Raise _ => []
    end.

(** A mapping table with a repeated [#SampleID] and a sample that is not
    pooled; the other columns are one number. *)
Definition map_table : list (MapRow nat) :=
  [mkMapRow "B" 1%nat; mkMapRow "A" 2%nat; mkMapRow "B" 3%nat; mkMapRow "Z" 4%nat].

(** * Properties *)

(** ** Rounding and the number of destination plates *)

Section Rounding.

Lemma truediv_ge_1 (a b : Z) : 0 < b -> (b <= a <-> (1 <= py_truediv a b)%Q).
Proof.
  intros Hb. unfold py_truediv.
  assert (Hq : (inject_Z 0 < inject_Z b)%Q) by (rewrite <- Zlt_Qlt; exact Hb).
  change (inject_Z 0) with 0%Q in Hq.
  split.
  - intros H. apply Qle_shift_div_l; [exact Hq|].
    rewrite Qmult_1_l. rewrite <- Zle_Qle. exact H.
  - intros H. rewrite Zle_Qle.
    assert (H' : (1 * inject_Z b <= inject_Z a / inject_Z b * inject_Z b)%Q).
    { apply Qmult_le_compat_r; [exact H | apply Qlt_le_weak, Hq]. }
    rewrite Qmult_1_l in H'.
    rewrite Qmult_comm, Qmult_div_r in H'; [exact H'|].
    intros E. rewrite E in Hq. apply (Qlt_irrefl _ Hq).
Qed.

Lemma inject_Z_gt_half (f : Z) : (1 # 2 < inject_Z f)%Q -> 1 <= f.
Proof. unfold Qlt, inject_Z. simpl. lia. Qed.

Lemma inject_Z_lt_three_halves (f : Z) : (inject_Z f < 3 # 2)%Q -> f <= 1.
Proof. unfold Qlt, inject_Z. simpl. lia. Qed.

(** [round] gives more than 1 exactly from 1.5 on: the tie at 1.5 goes to
    the even neighbour 2. *)
Lemma py_round_gt_1 (q : Q) : 1 < py_round q <-> (3 # 2 <= q)%Q.
Proof.
  unfold py_round.
  pose proof (Qfloor_le q) as Hlo. pose proof (Qlt_floor q) as Hhi.
  set (f := Qfloor q) in *.
  rewrite inject_Z_plus in Hhi. change (inject_Z 1) with 1%Q in Hhi.
  destruct (Qlt_le_dec q (3 # 2)) as [Hsmall|Hbig].
  - assert (Hf : f <= 1) by (apply inject_Z_lt_three_halves; lra).
    split; [|intros; lra].
    intros H. exfalso.
    destruct (Z.eq_dec f 1) as [E|NE].
    + rewrite E in *. change (inject_Z 1) with 1%Q in *.
      destruct (Qcompare_spec (q - 1) (1 # 2)); simpl in H; try lia; lra.
    + destruct (Qcompare (q - inject_Z f) (1 # 2)); [destruct (Z.even f)| |]; lia.
  - assert (Hf : 1 <= f) by (apply inject_Z_gt_half; lra).
    split; [intros _; exact Hbig|intros _].
    destruct (Z.eq_dec f 1) as [E|NE].
    + rewrite E in *. change (inject_Z 1) with 1%Q in *.
      destruct (Qcompare_spec (q - 1) (1 # 2)); simpl; try lia; lra.
    + destruct (Qcompare (q - inject_Z f) (1 # 2)); [destruct (Z.even f)| |]; lia.
Qed.

(** Line 353-354: with [positions] wells, more than one plate is asked for
    as soon as there are [positions] rows. *)
Lemma n_dest_plates_gt_1 (n : nat) (positions : Z) :
  0 < positions ->
  (1 <? py_round (py_truediv (Z.of_nat n) positions + (1 # 2)))
  = (positions <=? Z.of_nat n).
Proof.
  intros Hp. apply eq_true_iff_eq.
  rewrite Z.ltb_lt, Z.leb_le, py_round_gt_1, (truediv_ge_1 _ _ Hp).
  split; intros; lra.
Qed.

End Rounding.

(** ** Lists *)

Section Lists.

Context {A : Type}.

Lemma filter_all (P : A -> Prop) `{!forall x, Decision (P x)} (l : list A) :
  (forall x, x ∈ l -> P x) -> filter P l = l.
Proof.
  induction l as [|x l IH]; intros Hall; [done|].
  rewrite filter_cons_True by (apply Hall; left).
  f_equal. apply IH. intros y Hy. apply Hall. by right.
Qed.

Lemma filter_none (P : A -> Prop) `{!forall x, Decision (P x)} (l : list A) :
  (forall x, x ∈ l -> ~ P x) -> filter P l = [].
Proof.
  induction l as [|x l IH]; intros Hall; [done|].
  rewrite filter_cons_False by (apply Hall; left).
  apply IH. intros y Hy. apply Hall. by right.
Qed.

Lemma flat_map_ext_elem_of {B} (f g : A -> list B) (l : list A) :
  (forall x, x ∈ l -> f x = g x) -> flat_map f l = flat_map g l.
Proof.
  induction l as [|x l IH]; intros Hfg; simpl; [done|].
  rewrite (Hfg x) by left. f_equal. apply IH. intros y Hy. apply Hfg. by right.
Qed.



End Lists.

(** ** [unique]: first-appearance order *)

Section Unique.

Lemma elem_of_unique (l : list string) (s : string) : s ∈ unique l <-> s ∈ l.
Proof.
  induction l as [|x l IH]; simpl; [done|].
  rewrite !elem_of_cons, list_elem_of_filter, IH.
  destruct (decide (s = x)) as [->|Hne]; [tauto|].
  split; [intros [?|[_ ?]]; [done|by right]|intros [?|?]; [done|by right]].
Qed.

Lemma NoDup_unique (l : list string) : NoDup (unique l).
Proof.
  induction l as [|x l IH]; simpl; [constructor|].
  constructor.
  - rewrite list_elem_of_filter. intros [Hne _]. by apply Hne.
  - by apply NoDup_filter.
Qed.

Lemma unique_filter (P : string -> Prop) `{!forall s, Decision (P s)}
    (l : list string) :
  unique (filter P l) = filter P (unique l).
Proof.
  induction l as [|x l IH]; simpl; [done|].
  rewrite !filter_cons. destruct (decide (P x)) as [HP|HP]; simpl.
  - rewrite IH, !list_filter_filter. f_equal.
    apply list_filter_iff. intros y. tauto.
  - rewrite IH, list_filter_filter. apply list_filter_iff.
    intros y. split; [|tauto]. intros Hy. split; [done|].
    intros ->. done.
Qed.

Lemma unique_app (l1 l2 : list string) :
  unique (l1 ++ l2) = unique l1 ++ filter (fun y => y ∉ l1) (unique l2).
Proof.
  induction l1 as [|x l1 IH]; simpl.
  - symmetry. apply filter_all. intros y _. apply not_elem_of_nil.
  - rewrite IH, filter_app, list_filter_filter. do 2 f_equal.
    apply list_filter_iff. intros y. rewrite not_elem_of_cons. tauto.
Qed.

Lemma length_unique (l : list string) : (length (unique l) <= length l)%nat.
Proof.
  induction l as [|x l IH]; simpl; [lia|].
  pose proof (length_filter (fun y => y <> x) (unique l)). lia.
Qed.

End Unique.

(** ** The Sample Register *)

Section Register.

Lemma reg_inv_empty : reg_inv ∅ [].
Proof.
  split; [constructor|]. split; [by rewrite map_size_empty|].
  intros s p. rewrite lookup_empty. split; [done|].
  intros (k & Hk & _). by rewrite lookup_nil in Hk.
Qed.

Lemma reg_inv_known samples seen s p :
  reg_inv samples seen -> samples !! s = Some p -> s ∈ seen.
Proof.
  intros (_ & _ & H) Hs. apply H in Hs as (k & Hk & _).
  by eapply list_elem_of_lookup_2.
Qed.

Lemma reg_inv_fresh samples seen s :
  reg_inv samples seen -> samples !! s = None -> s ∉ seen.
Proof.
  intros (_ & _ & H) Hs Hin.
  apply list_elem_of_lookup in Hin as (k & Hk).
  assert (samples !! s = Some (Z.of_nat k + 1)) as Hsome by (apply H; eauto).
  congruence.
Qed.

Lemma reg_inv_mint samples seen s :
  reg_inv samples seen -> samples !! s = None ->
  reg_inv (<[s := Z.of_nat (size samples) + 1]> samples) (seen ++ [s]).
Proof.
  intros Hinv Hs. pose proof (reg_inv_fresh _ _ _ Hinv Hs) as Hfresh.
  destruct Hinv as (Hnd & Hsz & H).
  split; [|split].
  - apply NoDup_app. split; [done|]. split; [|apply NoDup_singleton].
    intros y Hy Hy'. apply list_elem_of_singleton in Hy'. by subst.
  - rewrite map_size_insert_None by done. rewrite length_app. simpl. lia.
  - intros y p. destruct (decide (y = s)) as [->|Hne].
    + rewrite lookup_insert_eq. split.
      * intros [= <-]. exists (length seen). split; [|lia].
        rewrite lookup_app_r by lia. by rewrite Nat.sub_diag.
      * intros (k & Hk & ->). f_equal.
        destruct (decide (k < length seen)%nat) as [Hlt|Hge].
        -- rewrite lookup_app_l in Hk by done.
           exfalso. apply Hfresh. by eapply list_elem_of_lookup_2.
        -- apply lookup_lt_Some in Hk. rewrite length_app in Hk. simpl in Hk. lia.
    + rewrite lookup_insert_ne by done. rewrite H. split.
      * intros (k & Hk & ->). exists k. split; [|done].
        by apply lookup_app_l_Some.
      * intros (k & Hk & ->). exists k. split; [|done].
        apply lookup_app_Some in Hk as [Hk|[_ Hk]]; [done|].
        apply list_elem_of_lookup_2, list_elem_of_singleton in Hk. done.
Qed.

(** The ordinal of a row is one more than the rank of its name among the
    names in first-appearance order. *)
Lemma sample_register_rank names : forall samples seen (i : nat) s,
  reg_inv samples seen ->
  names !! i = Some s ->
  exists k : nat,
    (seen ++ filter (fun y => y ∉ seen) (unique names)) !! k = Some s /\
    sample_register samples names !! i = Some (Z.of_nat k + 1).
Proof.
  induction names as [|x names IH]; intros samples seen i s Hinv Hi.
  { by rewrite lookup_nil in Hi. }
  simpl. unfold lookup_or_mint.
  destruct (samples !! x) as [p|] eqn:Hx.
  - pose proof (reg_inv_known _ _ _ _ Hinv Hx) as Hin.
    rewrite filter_cons_False by naive_solver.
    rewrite list_filter_filter_l by (intros y Hy ->; done).
    destruct i as [|i]; simpl in Hi.
    + injection Hi as ->.
      destruct Hinv as (_ & _ & H). apply H in Hx as (k & Hk & ->).
      exists k. split; [by apply lookup_app_l_Some|done].
    + by apply IH.
  - pose proof (reg_inv_fresh _ _ _ Hinv Hx) as Hfresh.
    rewrite filter_cons_True by done.
    rewrite list_filter_filter.
    assert (Heq : seen ++ x :: filter (fun y => (y ∉ seen) /\ y <> x) (unique names)
                  = (seen ++ [x]) ++ filter (fun y => y ∉ seen ++ [x]) (unique names)).
    { rewrite <- app_assoc. simpl. do 2 f_equal. apply list_filter_iff.
      intros y. rewrite elem_of_app, list_elem_of_singleton. tauto. }
    rewrite Heq.
    destruct i as [|i]; simpl in Hi.
    + injection Hi as ->. exists (length seen). simpl.
      destruct Hinv as (_ & Hsz & _). rewrite Hsz. split; [|done].
      rewrite <- app_assoc. rewrite lookup_app_r by lia.
      by rewrite Nat.sub_diag.
    + simpl. apply IH; [|done]. by apply reg_inv_mint.
Qed.

Lemma sample_register_rank_empty names (i : nat) s :
  names !! i = Some s ->
  exists k : nat,
    unique names !! k = Some s /\
    sample_register ∅ names !! i = Some (Z.of_nat k + 1).
Proof.
  intros Hi.
  destruct (sample_register_rank names ∅ [] i s reg_inv_empty Hi) as (k & Hk & Hr).
  exists k. split; [|done]. simpl in Hk.
  rewrite filter_all in Hk; [done|]. intros y _. apply not_elem_of_nil.
Qed.

Lemma length_sample_register names : forall samples,
  length (sample_register samples names) = length names.
Proof.
  induction names as [|x names IH]; intros samples; simpl; [done|].
  destruct (lookup_or_mint samples x) as [p samples']. simpl. by rewrite IH.
Qed.

End Register.

(** ** [add_dest] *)

Section AddDestFacts.

Variable get_wells : string -> option Z.

Lemma fill_dest_fits positions n dest_start dest_labware dest_type rows :
  (1 <? n) = false ->
  forall samples i,
    fill_dest positions n dest_start dest_labware dest_type samples i rows
    = Ok (zip_with (placed positions dest_labware dest_type) rows
                   (sample_register samples (map Sample rows))).
Proof.
  intros Hn. induction rows as [|row rows IH]; intros samples i; simpl; [done|].
  destruct (lookup_or_mint samples (Sample row)) as [p samples'].
  rewrite Hn, IH. done.
Qed.

Lemma fill_dest_overflow positions n dest_start dest_labware dest_type
    samples i row rows :
  (1 <? n) = true ->
  fill_dest positions n dest_start dest_labware dest_type samples i (row :: rows)
  = Raise (NameError "orig_dest_labware").
Proof.
  intros Hn. simpl.
  destruct (lookup_or_mint samples (Sample row)) as [p samples'].
  by rewrite Hn.
Qed.

(** With a known, positive number of wells [add_dest] returns exactly when
    the frame has fewer rows than the plate has wells. *)
Lemma add_dest_fits df dest_labware dest_type dest_start positions :
  get_wells dest_type = Some positions ->
  0 < positions ->
  Z.of_nat (length df) < positions ->
  add_dest get_wells df dest_labware dest_type dest_start
  = ([], Ok (zip_with (placed positions dest_labware dest_type) df
                      (sample_register ∅ (map Sample df)))).
Proof.
  intros Hw Hpos Hlen. unfold add_dest. rewrite Hw. simpl.
  destruct (positions =? 0) eqn:E; [lia|]. simpl.
  rewrite n_dest_plates_gt_1 by done.
  destruct (positions <=? Z.of_nat (length df)) eqn:E'; [lia|]. simpl.
  rewrite fill_dest_fits; [done|].
  rewrite n_dest_plates_gt_1 by done. done.
Qed.

Lemma add_dest_overflow df dest_labware dest_type dest_start positions :
  get_wells dest_type = Some positions ->
  0 < positions ->
  positions <= Z.of_nat (length df) ->
  add_dest get_wells df dest_labware dest_type dest_start
  = ([warning_multiple_plates], Raise (NameError "orig_dest_labware")).
Proof.
  intros Hw Hpos Hlen. unfold add_dest. rewrite Hw. simpl.
  destruct (positions =? 0) eqn:E; [lia|]. simpl.
  rewrite n_dest_plates_gt_1 by done.
  destruct (positions <=? Z.of_nat (length df)) eqn:E'; [|lia]. simpl.
  destruct df as [|row df]; [simpl in Hlen; lia|].
  rewrite fill_dest_overflow; [done|].
  rewrite n_dest_plates_gt_1 by done. done.
Qed.

Lemma add_dest_unknown df dest_labware dest_type dest_start :
  get_wells dest_type = None ->
  add_dest get_wells df dest_labware dest_type dest_start
  = ([], Raise (ValueError (msg_no_wells dest_type))).
Proof. intros Hw. unfold add_dest. by rewrite Hw. Qed.

(** What a returned frame looks like, whatever the number of wells. *)
Lemma add_dest_ok_inv df dest_labware dest_type dest_start out :
  outcome (add_dest get_wells df dest_labware dest_type dest_start) = Ok out ->
  exists positions,
    get_wells dest_type = Some positions /\ positions <> 0 /\
    out = zip_with (placed positions dest_labware dest_type) df
                   (sample_register ∅ (map Sample df)) /\
    (0 < positions -> Z.of_nat (length df) < positions).
Proof.
  unfold add_dest. destruct (get_wells dest_type) as [positions|] eqn:Hw;
    [|simpl; discriminate].
  simpl. destruct (positions =? 0) eqn:E; [simpl; discriminate|]. simpl.
  intros H. exists positions. split; [done|]. split; [lia|].
  destruct (1 <? py_round _) eqn:Hn; simpl in H.
  - destruct df as [|row df].
    + simpl in H. injection H as <-. split; [done|]. simpl. lia.
    + rewrite fill_dest_overflow in H by done. discriminate.
  - rewrite fill_dest_fits in H by done. injection H as <-. split; [done|].
    intros Hpos. rewrite n_dest_plates_gt_1 in Hn by done. lia.
Qed.

(** Every row of a returned frame: its sample has a rank [k] in first-
    appearance order, and its destination is well [k + 1], wrapped, of the
    one destination labware. *)
Lemma add_dest_row df dest_labware dest_type dest_start out r :
  outcome (add_dest get_wells df dest_labware dest_type dest_start) = Ok out ->
  r ∈ out ->
  exists positions (k : nat),
    get_wells dest_type = Some positions /\ positions <> 0 /\
    unique (map Sample df) !! k = Some (sample_of r) /\
    TECAN_dest_target_position r = dest_location positions (Z.of_nat k + 1) /\
    TECAN_dest_labware_name r = dest_labware /\
    TECAN_dest_labware_type r = dest_type /\
    source r ∈ df /\
    (0 < positions -> Z.of_nat (length df) < positions).
Proof.
  intros Hok Hr.
  apply add_dest_ok_inv in Hok as (positions & Hw & Hnz & -> & Hlen).
  apply list_elem_of_lookup in Hr as (i & Hi).
  apply lookup_zip_with_Some in Hi as (row & p & -> & Hrow & Hp).
  assert (Hname : map Sample df !! i = Some (Sample row)).
  { change (map Sample df) with (Sample <$> df).
    by rewrite list_lookup_fmap, Hrow. }
  destruct (sample_register_rank_empty _ _ _ Hname) as (k & Hk & Hreg).
  rewrite Hp in Hreg. injection Hreg as ->.
  exists positions, k. simpl.
  repeat split; try done. by eapply list_elem_of_lookup_2.
Qed.

Lemma dest_location_range positions p :
  1 <= positions -> 1 <= dest_location positions p <= positions.
Proof.
  intros Hpos. unfold dest_location.
  pose proof (Z.mod_pos_bound p positions ltac:(lia)).
  destruct (p mod positions =? 0) eqn:E; lia.
Qed.

Lemma dest_location_small positions p :
  1 <= p < positions -> dest_location positions p = p.
Proof.
  intros Hp. unfold dest_location. rewrite Z.mod_small by lia.
  destruct (p =? 0) eqn:E; lia.
Qed.

Lemma fill_dest_start_unused positions n dest_labware dest_type s s' rows :
  forall samples i i',
    fill_dest positions n s dest_labware dest_type samples i rows
    = fill_dest positions n s' dest_labware dest_type samples i' rows.
Proof.
  induction rows as [|row rows IH]; intros samples i i'; simpl; [done|].
  destruct (lookup_or_mint samples (Sample row)) as [p samples'].
  destruct (1 <? n); [done|]. by rewrite (IH samples' (i + 1) (i' + 1)).
Qed.

(** [dest_start] reaches only the discarded plate number [x]: it has no
    effect on what [add_dest] returns. *)
Lemma dest_start_unused df dest_labware dest_type s s' :
  add_dest get_wells df dest_labware dest_type s
  = add_dest get_wells df dest_labware dest_type s'.
Proof.
  unfold add_dest. destruct (get_wells dest_type) as [positions|]; [|done].
  simpl. destruct (positions =? 0); [done|]. simpl.
  by rewrite (fill_dest_start_unused _ _ _ _ s s' df ∅ 0 0).
Qed.

End AddDestFacts.

(** ** The claims on the Sample Register and on [add_dest] *)

Section Allocation.

Variable get_wells : string -> option Z.

(** The raw positions of lines 364-368 over a column of names: each row has
    the rank of its name in first-appearance order, counted from 1. *)
Lemma sample_register_first_appearance (names : list string) :
  let slots := sample_register ∅ names in
  length slots = length names /\
  (forall (i : nat) s, names !! i = Some s ->
     exists k : nat, unique names !! k = Some s /\ slots !! i = Some (Z.of_nat k + 1)) /\
  (forall (i : nat) s, names !! i = Some s -> s ∉ take i names ->
     slots !! i = Some (Z.of_nat (length (unique (take i names))) + 1)) /\
  (forall (i j : nat) s, names !! i = Some s -> names !! j = Some s ->
     slots !! i = slots !! j) /\
  (forall n, n ∈ slots <-> 1 <= n <= Z.of_nat (length (unique names))).
Proof.
  intros slots. split; [apply length_sample_register|]. split; [|split; [|split]].
  - intros i s Hi. by apply sample_register_rank_empty.
  - intros i s Hi Hfresh.
    destruct (sample_register_rank_empty _ _ _ Hi) as (k & Hk & Hs).
    fold slots in Hs. rewrite Hs. do 3 f_equal.
    assert (Hsplit : unique names !! length (unique (take i names)) = Some s).
    { assert (Hu : unique names = unique (take i names ++ drop i names))
        by (by rewrite take_drop).
      rewrite Hu, unique_app.
      rewrite lookup_app_r by lia. rewrite Nat.sub_diag.
      rewrite (drop_S _ _ _ Hi). simpl. by rewrite filter_cons_True. }
    eapply NoDup_lookup; eauto using NoDup_unique.
  - intros i j s Hi Hj.
    destruct (sample_register_rank_empty _ _ _ Hi) as (k & Hk & Hs).
    destruct (sample_register_rank_empty _ _ _ Hj) as (k' & Hk' & Hs').
    fold slots in Hs, Hs'. rewrite Hs, Hs'. do 3 f_equal.
    eapply NoDup_lookup; eauto using NoDup_unique.
  - intros n. split.
    + intros Hn. apply list_elem_of_lookup in Hn as (i & Hi).
      assert (is_Some (names !! i)) as [s Hs].
      { apply lookup_lt_is_Some. rewrite <- (length_sample_register names ∅).
        by eapply lookup_lt_Some. }
      destruct (sample_register_rank_empty _ _ _ Hs) as (k & Hk & Hk').
      fold slots in Hk'. rewrite Hi in Hk'. injection Hk' as ->.
      apply lookup_lt_Some in Hk. lia.
    + intros Hn.
      assert (is_Some (unique names !! Z.to_nat (n - 1))) as [s Hs].
      { apply lookup_lt_is_Some. lia. }
      assert (s ∈ names) as Hin.
      { apply elem_of_unique. by eapply list_elem_of_lookup_2. }
      apply list_elem_of_lookup in Hin as (i & Hi).
      destruct (sample_register_rank_empty _ _ _ Hi) as (k & Hk & Hk').
      assert (k = Z.to_nat (n - 1)) as ->
        by (eapply NoDup_lookup; eauto using NoDup_unique).
      fold slots in Hk'. apply list_elem_of_lookup. exists i.
      rewrite Hk'. f_equal. lia.
Qed.

Lemma source_placed positions dest_labware dest_type rows : forall slots,
  length slots = length rows ->
  map source (zip_with (placed positions dest_labware dest_type) rows slots) = rows.
Proof.
  induction rows as [|row rows IH]; intros [|p slots] Hlen; simpl in *;
    try done. f_equal. apply IH. lia.
Qed.

Lemma add_dest_same_sample df dest_labware dest_type dest_start out r1 r2 :
  outcome (add_dest get_wells df dest_labware dest_type dest_start) = Ok out ->
  r1 ∈ out -> r2 ∈ out ->
  sample_of r1 = sample_of r2 -> assignment r1 = assignment r2.
Proof.
  intros Hok H1 H2 Hsame.
  destruct (add_dest_row _ _ _ _ _ _ _ Hok H1)
    as (p1 & k1 & Hw1 & _ & Hk1 & Hpos1 & Hn1 & Ht1 & _).
  destruct (add_dest_row _ _ _ _ _ _ _ Hok H2)
    as (p2 & k2 & Hw2 & _ & Hk2 & Hpos2 & Hn2 & Ht2 & _).
  assert (p1 = p2) as -> by congruence.
  rewrite Hsame in Hk1.
  assert (k1 = k2) as -> by (eapply NoDup_lookup; eauto using NoDup_unique).
  unfold assignment. congruence.
Qed.

Lemma add_dest_other_sample df dest_labware dest_type dest_start positions out r1 r2 :
  get_wells dest_type = Some positions ->
  1 <= positions ->
  outcome (add_dest get_wells df dest_labware dest_type dest_start) = Ok out ->
  r1 ∈ out -> r2 ∈ out ->
  sample_of r1 <> sample_of r2 ->
  TECAN_dest_target_position r1 <> TECAN_dest_target_position r2.
Proof.
  intros Hw Hpos Hok H1 H2 Hdiff.
  destruct (add_dest_row _ _ _ _ _ _ _ Hok H1)
    as (p1 & k1 & Hw1 & _ & Hk1 & Hpos1 & _ & _ & _ & Hlen).
  destruct (add_dest_row _ _ _ _ _ _ _ Hok H2)
    as (p2 & k2 & Hw2 & _ & Hk2 & Hpos2 & _).
  assert (p1 = positions) as -> by congruence.
  assert (p2 = positions) as -> by congruence.
  pose proof (length_unique (map Sample df)) as Hu.
  rewrite length_map in Hu.
  apply lookup_lt_Some in Hk1 as Hlt1. apply lookup_lt_Some in Hk2 as Hlt2.
  rewrite dest_location_small in Hpos1 by lia.
  rewrite dest_location_small in Hpos2 by lia.
  intros E. assert (k1 = k2) as -> by lia. congruence.
Qed.

(** C4. In a frame [add_dest] returns, every input row is present with its
    destination, and rows of one sample carry one and the same destination:
    labware name, labware type and target position. *)
Theorem C4_replicates_share_assignment df dest_labware dest_type dest_start out :
  outcome (add_dest get_wells df dest_labware dest_type dest_start) = Ok out ->
  map source out = df /\
  forall r1 r2, r1 ∈ out -> r2 ∈ out ->
    sample_of r1 = sample_of r2 -> assignment r1 = assignment r2.
Proof.
  intros Hok. split.
  - apply add_dest_ok_inv in Hok as (positions & _ & _ & -> & _).
    apply source_placed. by rewrite length_sample_register, length_map.
  - intros r1 r2 H1 H2 Hsame. eapply add_dest_same_sample; eauto.
Qed.

(** C5. On a destination labware with at least one well, rows of different
    samples of a returned frame have different target positions on the one
    destination labware, hence different (labware, position) pairs. *)
Theorem C5_distinct_samples_distinct_wells
    df dest_labware dest_type dest_start positions out :
  get_wells dest_type = Some positions ->
  1 <= positions ->
  outcome (add_dest get_wells df dest_labware dest_type dest_start) = Ok out ->
  forall r1 r2, r1 ∈ out -> r2 ∈ out ->
    sample_of r1 <> sample_of r2 ->
    TECAN_dest_target_position r1 <> TECAN_dest_target_position r2 /\
    (TECAN_dest_labware_name r1, TECAN_dest_target_position r1)
    <> (TECAN_dest_labware_name r2, TECAN_dest_target_position r2).
Proof.
  intros Hw Hpos Hok r1 r2 H1 H2 Hdiff.
  assert (Hne : TECAN_dest_target_position r1 <> TECAN_dest_target_position r2)
    by (eapply add_dest_other_sample; eauto).
  split; [done|]. intros [= _ E]. done.
Qed.

(** C9. With [positions >= 1] wells, line 370 sends every ordinal into
    [1..positions], and so every target position of a returned frame lies
    in [1..positions]; position 0 does not occur. *)
Theorem C9_target_position_in_range positions :
  1 <= positions ->
  (forall p, 1 <= dest_location positions p <= positions) /\
  (forall df dest_labware dest_type dest_start out,
     get_wells dest_type = Some positions ->
     outcome (add_dest get_wells df dest_labware dest_type dest_start) = Ok out ->
     Forall (fun r => 1 <= TECAN_dest_target_position r <= positions) out).
Proof.
  intros Hpos. split; [intros p; by apply dest_location_range|].
  intros df dest_labware dest_type dest_start out Hw Hok.
  apply Forall_forall. intros r Hr.
  destruct (add_dest_row _ _ _ _ _ _ _ Hok Hr) as (p & k & Hw' & _ & _ & -> & _).
  assert (p = positions) as -> by congruence.
  by apply dest_location_range.
Qed.

Lemma positions_placed positions dest_labware dest_type rows : forall slots,
  length slots = length rows ->
  map TECAN_dest_target_position
      (zip_with (placed positions dest_labware dest_type) rows slots)
  = map (dest_location positions) slots.
Proof.
  induction rows as [|row rows IH]; intros [|p slots] Hlen; simpl in *;
    try done. f_equal. apply IH. lia.
Qed.

(** C8. In every frame [add_dest] returns for a labware with at least one
    well, the target position a row gets from the dictionary of lines
    361-368 is the rank of its sample name in first-appearance order,
    counted from 1: a name seen for the first time gets one more than the
    number of distinct names before it, a name seen again gets the slot it
    already has, and the slots in use are exactly 1..K for K distinct
    names. *)
Theorem C8_add_dest_slots_first_appearance
    df dest_labware dest_type dest_start positions out :
  get_wells dest_type = Some positions ->
  1 <= positions ->
  outcome (add_dest get_wells df dest_labware dest_type dest_start) = Ok out ->
  let names := map Sample df in
  let slots := map TECAN_dest_target_position out in
  length slots = length names /\
  (forall (i : nat) s, names !! i = Some s ->
     exists k : nat, unique names !! k = Some s /\ slots !! i = Some (Z.of_nat k + 1)) /\
  (forall (i : nat) s, names !! i = Some s -> s ∉ take i names ->
     slots !! i = Some (Z.of_nat (length (unique (take i names))) + 1)) /\
  (forall (i j : nat) s, names !! i = Some s -> names !! j = Some s ->
     slots !! i = slots !! j) /\
  (forall n, n ∈ slots <-> 1 <= n <= Z.of_nat (length (unique names))).
Proof.
  intros Hw Hpos Hok names slots.
  pose proof (sample_register_first_appearance names) as Hreg.
  assert (Heq : slots = sample_register ∅ names).
  { unfold slots. pose proof Hok as Hok'.
    apply add_dest_ok_inv in Hok' as (p & Hw' & _ & -> & Hlen).
    assert (p = positions) as -> by congruence.
    rewrite positions_placed by (by rewrite length_sample_register, length_map).
    etrans; [|apply map_id].
    apply map_ext_Forall, Forall_forall. intros n Hn.
    destruct Hreg as (_ & _ & _ & _ & Hdense).
    apply Hdense in Hn.
    pose proof (length_unique names) as Hu. unfold names in Hu, Hn.
    rewrite length_map in Hu.
    apply dest_location_small. lia. }
  rewrite Heq. exact Hreg.
Qed.

End Allocation.

Lemma C4_witness :
  map source frame_ABA = rows_ABA /\
  forall r1 r2, r1 ∈ frame_ABA -> r2 ∈ frame_ABA ->
    sample_of r1 = sample_of r2 -> assignment r1 = assignment r2.
Proof.
  apply (C4_replicates_share_assignment wells_table rows_ABA
           "Pooled DNA plate" pcr96 1 frame_ABA).
  vm_compute. reflexivity.
Defined.

Lemma C5_witness :
  TECAN_dest_target_position (mkPoolRow (sample_row "A" 1) "Pooled DNA plate" pcr96 1)
  <> TECAN_dest_target_position (mkPoolRow (sample_row "B" 2) "Pooled DNA plate" pcr96 2).
Proof.
  refine (proj1 (C5_distinct_samples_distinct_wells wells_table rows_ABA
           "Pooled DNA plate" pcr96 1 96 frame_ABA _ _ _ _ _ _ _ _)).
  - reflexivity.
  - lia.
  - vm_compute. reflexivity.
  - unfold frame_ABA. apply list_elem_of_here.
  - unfold frame_ABA. apply list_elem_of_further, list_elem_of_here.
  - vm_compute. discriminate.
Defined.

Lemma C9_witness :
  Forall (fun r => 1 <= TECAN_dest_target_position r <= 96) frame_ABA.
Proof.
  refine (proj2 (C9_target_position_in_range wells_table 96 _)
            rows_ABA "Pooled DNA plate" pcr96 1 frame_ABA _ _).
  - lia.
  - reflexivity.
  - vm_compute. reflexivity.
Defined.

Lemma C8_witness :
  map TECAN_dest_target_position frame_BABCA !! 3%nat = Some 3.
Proof.
  destruct (C8_add_dest_slots_first_appearance wells_table rows_BABCA
              "Pooled DNA plate" pcr96 1 96 frame_BABCA)
    as (_ & _ & Hfresh & _).
  - reflexivity.
  - lia.
  - vm_compute. reflexivity.
  - apply (Hfresh 3%nat "c"); [reflexivity|].
    vm_compute. intros H.
    by repeat (inversion H as [|? ? ? H']; clear H; rename H' into H).
Defined.

(** C1. The code at an offset other than 1, and at the last well of a plate.
    With 96 wells and [dest_start = 2] the first sample is put on position 1,
    where the formula of the design document gives 2; with 4 wells and 4
    samples the run prints the warning and raises [NameError] before any
    sample is placed, where the formula puts the 4th sample on position 4 of
    plate 1. *)
Theorem C1_dest_start_ignored :
  add_dest wells_table [sample_row "A" 1] "Pooled DNA plate" pcr96 2
  = ([], Ok [mkPoolRow (sample_row "A" 1) "Pooled DNA plate" pcr96 1]) /\
  spec_target_position 96 2 1 = 2 /\
  add_dest wells_table rows_ABCD "Pooled DNA plate" "4 Well Test Plate" 1
  = ([warning_multiple_plates], Raise (NameError "orig_dest_labware")) /\
  spec_target_position 4 1 4 = 4 /\ spec_plate_instance 4 1 4 = 1.
Proof. repeat split; vm_compute; reflexivity. Qed.

(** C3. The code on 5 distinct samples for a 4-well destination, offset 1:
    the warning is printed and the first pass through the loop raises
    [NameError] on the unbound name [orig_dest_labware]; no sample is placed,
    where the design document puts sample 5 on position 1 of plate 2. *)
Theorem C3_overflow_raises_NameError :
  add_dest wells_table rows_ABCDE "Pooled DNA plate" "4 Well Test Plate" 1
  = ([warning_multiple_plates], Raise (NameError "orig_dest_labware")) /\
  spec_target_position 4 1 5 = 1 /\ spec_plate_instance 4 1 5 = 2.
Proof. repeat split; vm_compute; reflexivity. Qed.

(** ** The order in which [pool_samples] visits the rows *)

Section VisitOrder.

Lemma samples_of_other_rows (sx : string) (l : list PoolRow) :
  map sample_of (filter (fun r => sample_of r <> sx) l)
  = filter (fun s => s <> sx) (map sample_of l).
Proof.
  induction l as [|x l IH]; simpl; [done|].
  rewrite !filter_cons. destruct (decide (sample_of x <> sx)); simpl; by rewrite IH.
Qed.

Lemma visit_order_cons (x : PoolRow) (l : list PoolRow) :
  visit_order (x :: l)
  = x :: replicates l (sample_of x)
      ++ visit_order (filter (fun r => sample_of r <> sample_of x) l).
Proof.
  unfold visit_order at 1. simpl. unfold replicates at 1.
  rewrite filter_cons_True by done. simpl. do 2 f_equal.
  unfold visit_order.
  rewrite samples_of_other_rows.
  rewrite unique_filter.
  apply flat_map_ext_elem_of. intros s Hs.
  apply list_elem_of_filter in Hs as [Hs _].
  unfold replicates. rewrite filter_cons_False by congruence.
  rewrite list_filter_filter. apply list_filter_iff.
  intros r. split; [intros ->; done|tauto].
Qed.

Lemma visit_order_perm_aux (n : nat) : forall l : list PoolRow,
  (length l <= n)%nat -> visit_order l ≡ₚ l.
Proof.
  induction n as [|n IH]; intros [|x l] Hlen; simpl in Hlen; try done; try lia.
  rewrite visit_order_cons. constructor.
  rewrite IH.
  - apply (filter_app_complement (fun r => sample_of r = sample_of x)).
  - pose proof (length_filter (fun r => sample_of r <> sample_of x) l). lia.
Qed.

Lemma visit_order_perm (l : list PoolRow) : visit_order l ≡ₚ l.
Proof. by apply (visit_order_perm_aux (length l)). Qed.

Lemma colocated_elem_of (l : list PoolRow) :
  colocated l <->
  forall r1 r2, r1 ∈ l -> r2 ∈ l -> sample_of r1 = sample_of r2 ->
    TECAN_dest_target_position r1 = TECAN_dest_target_position r2.
Proof.
  unfold colocated. split.
  - intros H r1 r2 H1 H2. rewrite Forall_forall in H.
    specialize (H r1 H1). rewrite Forall_forall in H. by apply H.
  - intros H. apply Forall_forall. intros r1 H1.
    apply Forall_forall. intros r2 H2. by apply H.
Qed.

Lemma slot_unique_elem_of (l : list PoolRow) :
  slot_unique l <->
  forall r1 r2, r1 ∈ l -> r2 ∈ l -> sample_of r1 <> sample_of r2 ->
    TECAN_dest_target_position r1 <> TECAN_dest_target_position r2.
Proof.
  unfold slot_unique. split.
  - intros H r1 r2 H1 H2. rewrite Forall_forall in H.
    specialize (H r1 H1). rewrite Forall_forall in H. by apply H.
  - intros H. apply Forall_forall. intros r1 H1.
    apply Forall_forall. intros r2 H2. by apply H.
Qed.






End VisitOrder.

(** ** The worklist of [pool_samples] *)

Section Worklist.

Variables (volume : Q) (liq_cls : string) (new_tips : bool).

Local Abbreviation replicate_cmds := (replicate_commands volume liq_cls new_tips).
Local Abbreviation sample_cmds := (sample_commands volume liq_cls new_tips).

Lemma pool_samples_eq sort_values df :
  pool_samples sort_values volume liq_cls new_tips df []
  = Comment "Sample pooling"
      :: flat_map (sample_cmds (sort_values df))
                  (unique (map sample_of (sort_values df))).
Proof. reflexivity. Qed.

Lemma transfers_replicate r tail :
  transfers (replicate_cmds r ++ tail)
  = row_transfer volume liq_cls r :: transfers tail.
Proof.
  unfold replicate_commands, row_transfer. simpl.
  destruct new_tips; reflexivity.
Qed.

Lemma transfers_replicates rows : forall tail,
  transfers (flat_map replicate_cmds rows ++ tail)
  = map (row_transfer volume liq_cls) rows ++ transfers tail.
Proof.
  induction rows as [|r rows IH]; intros tail; cbn [flat_map map app]; [done|].
  by rewrite <- app_assoc, transfers_replicate, IH.
Qed.

Lemma transfers_sample df s tail :
  transfers (sample_cmds df s ++ tail)
  = map (row_transfer volume liq_cls) (replicates df s) ++ transfers tail.
Proof.
  unfold sample_commands.
  rewrite <- app_assoc, transfers_replicates. destruct new_tips; reflexivity.
Qed.

Lemma transfers_samples df names : forall tail,
  transfers (flat_map (sample_cmds df) names ++ tail)
  = map (row_transfer volume liq_cls) (flat_map (replicates df) names)
      ++ transfers tail.
Proof.
  induction names as [|s names IH]; intros tail; cbn [flat_map map app]; [done|].
  by rewrite <- app_assoc, transfers_sample, IH, map_app, app_assoc.
Qed.

(** The Aspirate/Dispense pairs of the worklist are those of the rows, in
    visit order. *)
Lemma transfers_pool_samples sort_values df :
  transfers (pool_samples sort_values volume liq_cls new_tips df [])
  = map (row_transfer volume liq_cls) (visit_order (sort_values df)).
Proof.
  rewrite pool_samples_eq. simpl.
  rewrite <- (app_nil_r (flat_map _ _)), transfers_samples. simpl.
  by rewrite app_nil_r.
Qed.

Lemma count_kind_app k l1 l2 :
  count_kind k (l1 ++ l2) = (count_kind k l1 + count_kind k l2)%nat.
Proof. unfold count_kind. by rewrite filter_app, length_app. Qed.

Lemma count_kind_flat_map {A B} k (f : A -> list Command) (g : A -> list B) l :
  (forall x, count_kind k (f x) = length (g x)) ->
  count_kind k (flat_map f l) = length (flat_map g l).
Proof.
  intros Hfg. induction l as [|x l IH]; simpl; [done|].
  by rewrite count_kind_app, length_app, Hfg, IH.
Qed.

Lemma length_flat_map_singleton {A} (l : list A) :
  length (flat_map (fun x => [x]) l) = length l.
Proof. induction l; simpl; congruence. Qed.

Lemma count_transfers_sample k df s :
  k = KAspirate \/ k = KDispense ->
  count_kind k (sample_cmds df s) = length (replicates df s).
Proof.
  intros Hk. unfold sample_commands.
  rewrite count_kind_app.
  rewrite (count_kind_flat_map k _ (fun x => [x])), length_flat_map_singleton.
  - assert (count_kind k (if new_tips then [] else [Waste]) = 0%nat) as ->
      by (destruct Hk as [-> | ->]; destruct new_tips; reflexivity).
    unfold replicates. lia.
  - intros r. unfold replicate_commands.
    destruct Hk as [-> | ->]; destruct new_tips; reflexivity.
Qed.

Lemma count_transfers_pool_samples sort_values k df :
  (forall l, sort_values l ≡ₚ l) ->
  k = KAspirate \/ k = KDispense ->
  count_kind k (pool_samples sort_values volume liq_cls new_tips df [])
  = length df.
Proof.
  intros Hperm Hk. rewrite pool_samples_eq.
  change (Comment "Sample pooling" :: ?l) with ([Comment "Sample pooling"] ++ l).
  rewrite count_kind_app.
  rewrite (count_kind_flat_map k _ (replicates (sort_values df)))
    by (intros s; by apply count_transfers_sample).
  fold (visit_order (sort_values df)).
  rewrite (Permutation_length (visit_order_perm _)).
  rewrite (Permutation_length (Hperm df)).
  destruct Hk as [-> | ->]; reflexivity.
Qed.


End Worklist.

(** ** The concrete sort meets the contract of [sort_values] *)

Section InsertionSort.

Global Instance position_le_trans : Transitive position_le.
Proof. intros a b c. unfold position_le. lia. Qed.

Lemma insert_row_perm r l : insert_row r l ≡ₚ r :: l.
Proof.
  induction l as [|x l IH]; simpl; [done|].
  destruct (decide (position_le r x)); [done|].
  rewrite IH. apply perm_swap.
Qed.

Lemma insertion_sort_perm l : insertion_sort_values l ≡ₚ l.
Proof.
  induction l as [|x l IH]; simpl; [done|].
  by rewrite insert_row_perm, IH.
Qed.







End InsertionSort.

(** ** The claims on [pool_samples] *)

Section Generator.

Variable sort_values : list PoolRow -> list PoolRow.
Hypothesis sort_perm : forall l, sort_values l ≡ₚ l.
Hypothesis sort_sorted : forall l, Sorted position_le (sort_values l).

Lemma map_flat_map {A B C} (f : B -> C) (g : A -> list B) (l : list A) :
  map f (flat_map g l) = flat_map (fun x => map f (g x)) l.
Proof. induction l as [|x l IH]; simpl; [done|]. by rewrite map_app, IH. Qed.


End Generator.


Lemma slot_unique_frame_ABA : slot_unique frame_ABA.
Proof. unfold slot_unique. apply (bool_decide_unpack _). vm_compute. exact I. Defined.



Section TipPolicy.

Variable sort_values : list PoolRow -> list PoolRow.
Hypothesis sort_perm : forall l, sort_values l ≡ₚ l.

Variables (volume : Q) (liq_cls : string).

Lemma kinds_replicates (rows : list PoolRow) :
  map kind (flat_map (replicate_commands volume liq_cls false) rows)
  = concat (replicate (length rows) [KAspirate; KDispense; KFlush]).
Proof. induction rows as [|r rows IH]; simpl; [done|]. by rewrite IH. Qed.

Lemma kinds_sample (df : list PoolRow) (s : string) :
  map kind (sample_commands volume liq_cls false df s)
  = concat (replicate (length (replicates df s)) [KAspirate; KDispense; KFlush])
      ++ [KWaste].
Proof. unfold sample_commands. by rewrite map_app, kinds_replicates. Qed.

Lemma length_replicates_sorted (df : list PoolRow) (s : string) :
  length (replicates (sort_values df) s) = length (replicates df s).
Proof. apply Permutation_length. unfold replicates. by rewrite sort_perm. Qed.

(** C2, as the code has it. Without new tips between replicates, the
    commands of a sample with k replicate rows are k times Aspirate,
    Dispense, Flush, then one Waste: a Flush follows the dispense of every
    replicate, the last one included, and the one Waste of the sample
    comes after the Flush of its last replicate. *)
Theorem C2_flush_after_every_replicate (df : list PoolRow) :
  let cmds := pool_samples sort_values volume liq_cls false df [] in
  let block s := sample_commands volume liq_cls false (sort_values df) s in
  map kind cmds
  = KComment
      :: flat_map (fun s => concat (replicate (length (replicates df s))
                                       [KAspirate; KDispense; KFlush])
                            ++ [KWaste])
                  (unique (map sample_of (sort_values df))) /\
  (forall s, count_kind KFlush (block s) = length (replicates df s) /\
             count_kind KWaste (block s) = 1%nat /\
             last (block s) = Some Waste) /\
  count_kind KFlush cmds = length df.
Proof.
  intros cmds block. split; [|split].
  - unfold cmds. rewrite pool_samples_eq. simpl. f_equal.
    rewrite map_flat_map. apply flat_map_ext_elem_of. intros s _.
    by rewrite kinds_sample, length_replicates_sorted.
  - intros s. unfold block, sample_commands.
    rewrite !count_kind_app, last_snoc.
    rewrite (count_kind_flat_map KFlush _ (fun x => [x])) by done.
    rewrite (count_kind_flat_map KWaste _ (fun _ => @nil unit)) by done.
    rewrite length_flat_map_singleton.
    replace (length (flat_map (fun _ => @nil unit) _)) with 0%nat
      by (induction (filter _ _); simpl; done).
    fold (replicates (sort_values df) s). rewrite length_replicates_sorted.
    repeat split. unfold count_kind. simpl. lia.
  - unfold cmds. rewrite pool_samples_eq.
    change (Comment "Sample pooling" :: ?l) with ([Comment "Sample pooling"] ++ l).
    rewrite count_kind_app.
    rewrite (count_kind_flat_map KFlush _ (replicates (sort_values df))).
    + fold (visit_order (sort_values df)).
      rewrite (Permutation_length (visit_order_perm _)).
      by rewrite (Permutation_length (sort_perm df)).
    + intros s. unfold sample_commands. rewrite count_kind_app.
      rewrite (count_kind_flat_map KFlush _ (fun x => [x])) by done.
      rewrite length_flat_map_singleton. unfold replicates, count_kind. simpl. lia.
Qed.

End TipPolicy.

Lemma C2_witness :
  count_kind KFlush
    (sample_commands 30 "Water Free Single No-cLLD" false
       (insertion_sort_values three_replicates) "A") = 3%nat.
Proof.
  exact (proj1 (proj1 (proj2
    (C2_flush_after_every_replicate insertion_sort_values insertion_sort_perm
       30 "Water Free Single No-cLLD" three_replicates)) "A")).
Defined.

(** C2, as stated, at one sample with three replicates: the worklist holds
    three Flush commands, not two, the third between the last dispense and
    the Waste. *)
Lemma C2_counterexample :
  map kind (pool_samples insertion_sort_values 30 "Water Free Single No-cLLD"
              false three_replicates [])
  = [KComment; KAspirate; KDispense; KFlush; KAspirate; KDispense; KFlush;
     KAspirate; KDispense; KFlush; KWaste] /\
  ~ (count_kind KFlush
       (pool_samples insertion_sort_values 30 "Water Free Single No-cLLD"
          false three_replicates []) = 2%nat /\
     count_kind KWaste
       (pool_samples insertion_sort_values 30 "Water Free Single No-cLLD"
          false three_replicates []) = 1%nat).
Proof.
  split; [vm_compute; reflexivity|].
  vm_compute. intros [H _]. discriminate H.
Qed.

(** ** The claims on [main] *)

Section MainFacts.

Variable get_wells : string -> option Z.
Variable get_labware : string -> result unit.
Variable get_labware_wells : string -> result PyVal.
Variable sort_values : list PoolRow -> list PoolRow.

Local Abbreviation run := (main get_wells get_labware get_labware_wells sort_values).

(** C7. When the labware table has no number of wells for the destination
    type, the run raises the error of line 344 at once: nothing was printed
    and no command list exists, whatever the rows. *)
Theorem C7_unknown_destination_aborts (args : Args) (df : list Row) :
  get_wells (dest_type args) = None ->
  run args df = ([], Raise (ValueError (msg_no_wells (dest_type args)))).
Proof. intros Hw. unfold main. by rewrite add_dest_unknown. Qed.

Lemma main_ok_inv args df out cmds :
  run args df = (out, Ok cmds) ->
  exists df1 df2,
    outcome (add_dest get_wells
               (filter (fun r => Call r ∈ ["success"; "pass"; "include"]) df)
               (dest_name args) (dest_type args) (dest_start args)) = Ok df1 /\
    check_rack_labels_frame (column_role args) df1 = Ok df2 /\
    cmds = pool_samples sort_values (arg_volume args) (liq_cls_arg args)
             (new_tips_arg args) df2 [].
Proof.
  unfold main.
  destruct (add_dest _ _ _ _ _) as [w [df1|e]]; simpl; [|discriminate].
  destruct (check_rack_labels_frame _ df1) as [df2|e] eqn:Hcrl; simpl;
    [|discriminate].
  destruct (get_labware _); simpl; [|discriminate].
  destruct (get_labware_wells _) as [n_wells|]; simpl; [|discriminate].
  destruct (is_str_384 n_wells); simpl; [discriminate|].
  intros [= _ <-]. by exists df1, df2.
Qed.

(** Under the default label of the labware-name column the frame version is
    [check_rack_labels]. *)
Lemma check_rack_labels_frame_default role_of df :
  role_of "labware_name" = Some RLabwareName ->
  check_rack_labels_frame role_of df = Ok (check_rack_labels df).
Proof. intros H. unfold check_rack_labels_frame. by rewrite H. Qed.

Lemma check_rack_labels_frame_length role_of df df' :
  check_rack_labels_frame role_of df = Ok df' -> length df' = length df.
Proof.
  unfold check_rack_labels_frame.
  destruct (role_of _) as [[]|]; try discriminate;
    try (intros [= <-]; by rewrite !length_map).
  destruct df; [intros [= <-]; done|discriminate].
Qed.

Lemma elem_of_flat_map {A B} (f : A -> list B) (l : list A) (y : B) :
  y ∈ flat_map f l <-> exists x, x ∈ l /\ y ∈ f x.
Proof.
  rewrite list_elem_of_In, in_flat_map.
  split; intros (x & Hx & Hy); exists x; split; by apply list_elem_of_In.
Qed.

Lemma elem_of_pool_samples volume liq_cls new_tips df c :
  (forall l, sort_values l ≡ₚ l) ->
  c ∈ pool_samples sort_values volume liq_cls new_tips df [] ->
  c = Comment "Sample pooling" \/ c = Waste \/
  exists r, r ∈ df /\ c ∈ replicate_commands volume liq_cls new_tips r.
Proof.
  intros Hperm. rewrite pool_samples_eq, elem_of_cons.
  intros [->|Hc]; [by left|right].
  apply elem_of_flat_map in Hc as (s & _ & Hc).
  unfold sample_commands in Hc. apply elem_of_app in Hc as [Hc|Hc].
  - right. apply elem_of_flat_map in Hc as (r & Hr & Hc).
    apply list_elem_of_filter in Hr as [_ Hr]. rewrite Hperm in Hr. eauto.
  - left. destruct new_tips; [by apply not_elem_of_nil in Hc|].
    by apply list_elem_of_singleton in Hc.
Qed.

Lemma elem_of_check_rack_labels df r :
  r ∈ check_rack_labels df ->
  exists r1, r1 ∈ df /\
    labware_name (source r) = replace_dot (labware_name (source r1)) /\
    TECAN_dest_labware_name r = replace_dot (TECAN_dest_labware_name r1) /\
    sample_of r = sample_of r1 /\
    TECAN_dest_target_position r = TECAN_dest_target_position r1.
Proof.
  unfold check_rack_labels. change (map ?f ?l) with (f <$> l).
  intros Hr. apply list_elem_of_fmap in Hr as (r2 & -> & Hr).
  apply list_elem_of_fmap in Hr as (r1 & -> & Hr).
  exists r1. by repeat split.
Qed.

(** Under the default label of the labware-name column, the frames [main]
    hands to [pool_samples] have their samples co-located and different
    samples on different positions. *)
Lemma main_frame_well_formed df dest_labware dest_type dest_start positions out :
  get_wells dest_type = Some positions ->
  1 <= positions ->
  outcome (add_dest get_wells df dest_labware dest_type dest_start) = Ok out ->
  colocated (check_rack_labels out) /\ slot_unique (check_rack_labels out).
Proof.
  intros Hw Hpos Hok. split.
  - apply colocated_elem_of. intros r1 r2 H1 H2 Hsame.
    apply elem_of_check_rack_labels in H1 as (r1' & H1 & _ & _ & Hs1 & ->).
    apply elem_of_check_rack_labels in H2 as (r2' & H2 & _ & _ & Hs2 & ->).
    assert (assignment r1' = assignment r2') as [= _ _ E]
      by (eapply add_dest_same_sample; eauto; congruence).
    done.
  - apply slot_unique_elem_of. intros r1 r2 H1 H2 Hdiff.
    apply elem_of_check_rack_labels in H1 as (r1' & H1 & _ & _ & Hs1 & ->).
    apply elem_of_check_rack_labels in H2 as (r2' & H2 & _ & _ & Hs2 & ->).
    eapply add_dest_other_sample; eauto; congruence.
Qed.

Lemma replace_dot_no_dot y : no_dot (replace_dot y).
Proof.
  induction y as [|c y IH]; simpl; [done|]. split; [|done].
  destruct (Ascii.eqb_spec c "."%char); [discriminate|done].
Qed.

Lemma replace_dot_length y : String.length (replace_dot y) = String.length y.
Proof. induction y as [|c y IH]; simpl; congruence. Qed.

Lemma replace_dot_get y : forall i c,
  String.get i y = Some c ->
  String.get i (replace_dot y)
  = Some (if Ascii.eqb c "."%char then "_"%char else c).
Proof.
  induction y as [|c' y IH]; intros i c; simpl; [done|].
  destruct i as [|i]; [by intros [= ->]|]. apply IH.
Qed.

(** X17. Under the default label of the labware-name column, when the run
    reaches a worklist, the rack labels of its Aspirates are, one for one,
    the labware names of the included rows with every ['.'] replaced by
    ['_'], the rack label of every Dispense is the destination name of the
    run so replaced, every Aspirate and Dispense is one of these, and no
    rack label of the worklist contains a ['.']. *)
Theorem X17_default_label_rack_labels (args : Args) (df : list Row) out cmds :
  (forall l, sort_values l ≡ₚ l) ->
  column_role args "labware_name" = Some RLabwareName ->
  run args df = (out, Ok cmds) ->
  map (fun t => RackLabel (fst t)) (transfers cmds)
  ≡ₚ map (fun row => replace_dot (labware_name row))
         (filter (fun r => Call r ∈ ["success"; "pass"; "include"]) df) /\
  Forall (fun t => RackLabel (snd t) = replace_dot (dest_name args))
         (transfers cmds) /\
  (count_kind KAspirate cmds = length (transfers cmds) /\
   count_kind KDispense cmds = length (transfers cmds)) /\
  (forall t, Aspirate t ∈ cmds \/ Dispense t ∈ cmds -> no_dot (RackLabel t)).
Proof.
  intros Hperm Hrole Hrun.
  apply main_ok_inv in Hrun as (df1 & df2 & Hok & Hcrl & ->).
  rewrite (check_rack_labels_frame_default _ _ Hrole) in Hcrl.
  injection Hcrl as <-.
  set (v := arg_volume args). set (q := liq_cls_arg args).
  set (nt := new_tips_arg args).
  assert (Hvis : visit_order (sort_values (check_rack_labels df1))
                 ≡ₚ check_rack_labels df1)
    by (by rewrite visit_order_perm, Hperm).
  assert (Hsrc : map source df1
                 = filter (fun r => Call r ∈ ["success"; "pass"; "include"]) df).
  { pose proof Hok as Hok'.
    apply add_dest_ok_inv in Hok' as (p & _ & _ & -> & _).
    apply source_placed. by rewrite length_sample_register, length_map. }
  assert (Hasp : forall t,
    Aspirate t ∈ pool_samples sort_values v q nt (check_rack_labels df1) [] ->
    exists r1, r1 ∈ df1 /\ RackLabel t = replace_dot (labware_name (source r1))).
  { intros t Ht. apply elem_of_pool_samples in Ht as [Ht|[Ht|Ht]]; try done.
    destruct Ht as (r & Hr & Ht).
    apply elem_of_check_rack_labels in Hr as (r1 & Hr1 & Hname & _).
    exists r1. split; [done|].
    unfold replicate_commands in Ht.
    apply elem_of_cons in Ht as [[= ->]|Ht]; [done|].
    apply elem_of_cons in Ht as [Ht|Ht]; [discriminate|].
    apply list_elem_of_singleton in Ht. by destruct nt. }
  assert (Hdisp : forall t,
    Dispense t ∈ pool_samples sort_values v q nt (check_rack_labels df1) [] ->
    RackLabel t = replace_dot (dest_name args)).
  { intros t Ht. apply elem_of_pool_samples in Ht as [Ht|[Ht|Ht]]; try done.
    destruct Ht as (r & Hr & Ht).
    apply elem_of_check_rack_labels in Hr as (r1 & Hr1 & _ & Hname & _).
    destruct (add_dest_row _ _ _ _ _ _ _ Hok Hr1) as (_ & _ & _ & _ & _ & _ & Hdest & _).
    unfold replicate_commands in Ht.
    apply elem_of_cons in Ht as [Ht|Ht]; [discriminate|].
    apply elem_of_cons in Ht as [[= ->]|Ht]; [simpl; congruence|].
    apply list_elem_of_singleton in Ht. by destruct nt. }
  split; [|split; [|split]].
  - rewrite transfers_pool_samples, map_map. simpl.
    change (map ?f ?l) with (f <$> l). rewrite Hvis.
    change (?f <$> ?l) with (map f l).
    rewrite <- Hsrc. unfold check_rack_labels. by rewrite !map_map.
  - rewrite transfers_pool_samples. apply Forall_forall. intros t Ht.
    change (map ?f ?l) with (f <$> l) in Ht.
    apply list_elem_of_fmap in Ht as (r & -> & Hr). rewrite Hvis in Hr.
    apply elem_of_check_rack_labels in Hr as (r1 & Hr1 & _ & Hname & _).
    destruct (add_dest_row _ _ _ _ _ _ _ Hok Hr1) as (_ & _ & _ & _ & _ & _ & Hdest & _).
    simpl. congruence.
  - rewrite !(count_transfers_pool_samples _ _ _ _ _ _ Hperm) by auto.
    rewrite transfers_pool_samples, length_map.
    by rewrite (Permutation_length Hvis).
  - intros t [Ht|Ht].
    + destruct (Hasp t Ht) as (r1 & _ & ->). apply replace_dot_no_dot.
    + rewrite (Hdisp t Ht). apply replace_dot_no_dot.
Qed.

End MainFacts.

Lemma C7_witness :
  example_run unknown_type_args rows_ABA
  = ([], Raise (ValueError (msg_no_wells "1536 Well Unlisted"))).
Proof.
  apply (C7_unknown_destination_aborts wells_table (fun _ => Ok tt)
           (fun _ => Ok (PyStr "96")) insertion_sort_values
           unknown_type_args rows_ABA).
  reflexivity.
Defined.

Lemma X17_witness :
  Forall (fun t => RackLabel (snd t) = replace_dot "Pooled.DNA.plate")
         (transfers worklist_ABA_dotted).
Proof.
  refine (proj1 (proj2
    (X17_default_label_rack_labels wells_table (fun _ => Ok tt)
       (fun _ => Ok (PyStr "96")) insertion_sort_values
       dotted_args rows_ABA [] worklist_ABA_dotted insertion_sort_perm _ _))).
  - reflexivity.
  - vm_compute. reflexivity.
Defined.

(** C10. The code when the labware-name column is not the one labelled
    [labware_name]: with [--sample-labware-name plate] and
    [--sample-labware-type labware_name], [check_rack_labels] rewrites the
    labware types and leaves the names, so the Aspirate of a row on labware
    [PCR.plate.1] carries that name with its dots; with only
    [--sample-labware-name plate] no column is labelled [labware_name] and
    line 281 raises [KeyError]. *)
Theorem C10_dotted_source_label_reaches_aspirate :
  example_run renamed_columns_args [sample_row "A" 1]
  = ([], Ok [Comment "Sample pooling";
             Aspirate (mkTransfer "PCR.plate.1" pcr96 1 30 "Water Free Single No-cLLD");
             Dispense (mkTransfer "Pooled DNA plate" pcr96 1 30
                                  "Water Free Single No-cLLD");
             Flush; Waste]) /\
  ~ no_dot "PCR.plate.1" /\
  example_run renamed_name_args [sample_row "A" 1]
  = ([], Raise (KeyError "labware_name")).
Proof.
  split; [vm_compute; reflexivity|]. split; [|vm_compute; reflexivity].
  simpl. intros (_ & _ & _ & [H _]). by apply H.
Qed.

(** * Further properties of the code *)

(** ** [add_dest]: when it returns, and what it returns *)

Section AddDestMore.

Variable get_wells : string -> option Z.

(** X1. For a destination type with at least one well, [add_dest] returns a
    frame exactly when the sample frame has fewer rows than the labware has
    wells, and then prints nothing; from as many rows as wells on, it prints
    the warning once and raises [NameError] on [orig_dest_labware]. *)
Theorem X1_add_dest_returns_iff_fewer_rows_than_wells
    df dest_labware dest_type dest_start positions :
  get_wells dest_type = Some positions ->
  1 <= positions ->
  (Z.of_nat (length df) < positions <->
   exists out, outcome (add_dest get_wells df dest_labware dest_type dest_start)
               = Ok out) /\
  (Z.of_nat (length df) < positions ->
   stderr (add_dest get_wells df dest_labware dest_type dest_start) = []) /\
  (positions <= Z.of_nat (length df) ->
   add_dest get_wells df dest_labware dest_type dest_start
   = ([warning_multiple_plates], Raise (NameError "orig_dest_labware"))).
Proof.
  intros Hw Hpos. split; [|split].
  - split.
    + intros Hlt. eexists. by rewrite (add_dest_fits _ _ _ _ _ _ Hw) by lia.
    + intros [out Hok].
      destruct (Z_lt_le_dec (Z.of_nat (length df)) positions) as [|Hge]; [done|].
      rewrite (add_dest_overflow _ _ _ _ _ _ Hw) in Hok by lia. discriminate.
  - intros Hlt. by rewrite (add_dest_fits _ _ _ _ _ _ Hw) by lia.
  - intros Hge. apply (add_dest_overflow _ _ _ _ _ _ Hw); lia.
Qed.

(** X2. [dest_start] plays no part in what [add_dest] prints, returns or
    raises: two calls that differ only in [dest_start] give the same. *)
Theorem X2_add_dest_ignores_dest_start df dest_labware dest_type s s' :
  add_dest get_wells df dest_labware dest_type s
  = add_dest get_wells df dest_labware dest_type s'.
Proof. apply dest_start_unused. Qed.

(** For a destination type listed with 0 wells, [add_dest] raises
    [ZeroDivisionError] on line 353, before the warning and before any row
    is looked at. *)
Lemma add_dest_zero_wells df dest_labware dest_type dest_start :
  get_wells dest_type = Some 0 ->
  add_dest get_wells df dest_labware dest_type dest_start
  = ([], Raise ZeroDivisionError).
Proof. intros Hw. unfold add_dest. by rewrite Hw. Qed.

Lemma add_dest_row_rank df dest_labware dest_type dest_start positions out r :
  get_wells dest_type = Some positions ->
  1 <= positions ->
  outcome (add_dest get_wells df dest_labware dest_type dest_start) = Ok out ->
  r ∈ out ->
  exists k : nat,
    unique (map Sample df) !! k = Some (sample_of r) /\
    TECAN_dest_target_position r = Z.of_nat k + 1 /\
    TECAN_dest_labware_name r = dest_labware /\
    TECAN_dest_labware_type r = dest_type.
Proof.
  intros Hw Hpos Hok Hr.
  destruct (add_dest_row _ _ _ _ _ _ _ Hok Hr)
    as (p & k & Hw' & _ & Hk & Hp & Hname & Htype & _ & Hlen).
  assert (p = positions) as -> by congruence.
  exists k. repeat split; try done.
  pose proof (length_unique (map Sample df)) as Hu. rewrite length_map in Hu.
  apply lookup_lt_Some in Hk.
  rewrite Hp. apply dest_location_small. lia.
Qed.

(** X3. In a frame [add_dest] returns for a labware with at least one well,
    every row sits on the destination labware under its given name and type,
    on the well whose number is the rank of its sample in first-appearance
    order; the wells in use are exactly 1..K for K distinct samples. *)
Theorem X3_add_dest_fills_first_wells
    df dest_labware dest_type dest_start positions out :
  get_wells dest_type = Some positions ->
  1 <= positions ->
  outcome (add_dest get_wells df dest_labware dest_type dest_start) = Ok out ->
  (forall r, r ∈ out ->
     exists k : nat,
       unique (map Sample df) !! k = Some (sample_of r) /\
       TECAN_dest_target_position r = Z.of_nat k + 1 /\
       TECAN_dest_labware_name r = dest_labware /\
       TECAN_dest_labware_type r = dest_type) /\
  (forall n, n ∈ map TECAN_dest_target_position out <->
             1 <= n <= Z.of_nat (length (unique (map Sample df)))).
Proof.
  intros Hw Hpos Hok. split.
  - intros r Hr. eapply add_dest_row_rank; eauto.
  - intros n. change (map ?f ?l) with (f <$> l). rewrite list_elem_of_fmap. split.
    + intros (r & -> & Hr).
      destruct (add_dest_row_rank _ _ _ _ _ _ _ Hw Hpos Hok Hr) as (k & Hk & -> & _).
      apply lookup_lt_Some in Hk. change (Sample <$> df) with (map Sample df). lia.
    + intros Hn.
      assert (is_Some (unique (map Sample df) !! Z.to_nat (n - 1))) as [s Hs].
      { apply lookup_lt_is_Some. change (Sample <$> df) with (map Sample df) in Hn. lia. }
      assert (s ∈ map Sample df) as Hin.
      { apply elem_of_unique. by eapply list_elem_of_lookup_2. }
      change (map Sample df) with (Sample <$> df) in Hin.
      apply list_elem_of_fmap in Hin as (row & -> & Hrow).
      assert (Hsrc : map source out = df).
      { pose proof Hok as Hok'.
        apply add_dest_ok_inv in Hok' as (p & _ & _ & -> & _).
        apply source_placed. by rewrite length_sample_register, length_map. }
      rewrite <- Hsrc in Hrow. change (map source out) with (source <$> out) in Hrow.
      apply list_elem_of_fmap in Hrow as (r & -> & Hr).
      exists r. split; [|done].
      destruct (add_dest_row_rank _ _ _ _ _ _ _ Hw Hpos Hok Hr) as (k & Hk & -> & _).
      assert (k = Z.to_nat (n - 1)) as ->
        by (eapply NoDup_lookup; eauto using NoDup_unique).
      lia.
Qed.

End AddDestMore.

(** ** [check_rack_labels] *)

Section RackLabels.

Lemma replace_dot_idem y : replace_dot (replace_dot y) = replace_dot y.
Proof.
  induction y as [|c y IH]; simpl; [done|]. rewrite IH. f_equal.
  destruct (Ascii.eqb_spec c "."%char) as [->|Hne]; [done|].
  by destruct (Ascii.eqb_spec c "."%char).
Qed.

Lemma replace_dot_fixed y : replace_dot y = y <-> no_dot y.
Proof.
  induction y as [|c y IH]; simpl; [done|]. split.
  - intros [= Hc Hy]. split; [|by apply IH].
    intros ->. discriminate Hc.
  - intros [Hc Hy]. rewrite (proj2 IH Hy). f_equal.
    by destruct (Ascii.eqb_spec c "."%char).
Qed.

(** X4. [check_rack_labels] changes nothing but the two name columns: it
    keeps the number and order of rows and every sample name, source labware
    type, source position, destination type and destination position; and
    running it a second time changes nothing more. *)
Theorem X4_check_rack_labels_idempotent (df : list PoolRow) :
  check_rack_labels (check_rack_labels df) = check_rack_labels df /\
  length (check_rack_labels df) = length df /\
  map sample_of (check_rack_labels df) = map sample_of df /\
  map (fun r => (labware_type (source r), Well (source r)))
      (check_rack_labels df)
  = map (fun r => (labware_type (source r), Well (source r))) df /\
  map (fun r => (TECAN_dest_labware_type r, TECAN_dest_target_position r))
      (check_rack_labels df)
  = map (fun r => (TECAN_dest_labware_type r, TECAN_dest_target_position r)) df.
Proof.
  unfold check_rack_labels. rewrite !map_map, !length_map. simpl.
  split; [|by repeat split].
  apply map_ext. intros r.
  unfold set_dest_labware_name, set_labware_name. simpl.
  by rewrite !replace_dot_idem.
Qed.

(** X5. [y.replace('.', '_')] leaves a name as it is exactly when the name
    has no ['.']; so a frame whose labware names have no ['.'] comes out of
    [check_rack_labels] unchanged, and a name with a ['.'] ends up equal to
    the name that already has ['_'] in those places. *)
Theorem X5_names_without_dot_unchanged :
  (forall y, replace_dot y = y <-> no_dot y) /\
  (forall y, replace_dot y = replace_dot (replace_dot y)) /\
  (forall df : list PoolRow,
     Forall (fun r => no_dot (labware_name (source r)) /\
                      no_dot (TECAN_dest_labware_name r)) df ->
     check_rack_labels df = df).
Proof.
  split; [apply replace_dot_fixed|]. split; [intros y; by rewrite replace_dot_idem|].
  intros df Hall. unfold check_rack_labels. rewrite map_map.
  rewrite <- (map_id df) at 2. apply map_ext_Forall.
  eapply Forall_impl; [exact Hall|]. intros [[s c n t w] dn dt dp] [Hn Hd].
  simpl in *. unfold set_dest_labware_name, set_labware_name. simpl.
  by rewrite (proj2 (replace_dot_fixed _) Hn), (proj2 (replace_dot_fixed _) Hd).
Qed.

End RackLabels.

(** ** [pool_samples]: fresh tips, and the size of the worklist *)

Section WorklistMore.

Variable sort_values : list PoolRow -> list PoolRow.
Hypothesis sort_perm : forall l, sort_values l ≡ₚ l.

Variables (volume : Q) (liq_cls : string).

Lemma length_unique_perm (l l' : list string) :
  l ≡ₚ l' -> length (unique l) = length (unique l').
Proof.
  intros Hperm. apply Permutation_length.
  apply NoDup_Permutation; [apply NoDup_unique..|].
  intros s. rewrite !elem_of_unique. by rewrite Hperm.
Qed.

Lemma samples_sorted (df : list PoolRow) :
  length (unique (map sample_of (sort_values df)))
  = length (unique (map sample_of df)).
Proof.
  apply length_unique_perm. change (map ?f ?l) with (f <$> l).
  by rewrite sort_perm.
Qed.

Lemma kinds_replicates_new_tips (rows : list PoolRow) :
  map kind (flat_map (replicate_commands volume liq_cls true) rows)
  = concat (replicate (length rows) [KAspirate; KDispense; KWaste]).
Proof. induction rows as [|r rows IH]; simpl; [done|]. by rewrite IH. Qed.

(** X6. With new tips between replicates, the commands of a sample with k
    replicate rows are k times Aspirate, Dispense, Waste and nothing else:
    the worklist has no Flush at all and one Waste per replicate row. *)
Theorem X6_new_tips_waste_after_every_replicate (df : list PoolRow) :
  let cmds := pool_samples sort_values volume liq_cls true df [] in
  map kind cmds
  = KComment
      :: flat_map (fun s => concat (replicate (length (replicates df s))
                                       [KAspirate; KDispense; KWaste]))
                  (unique (map sample_of (sort_values df))) /\
  count_kind KFlush cmds = 0%nat /\
  count_kind KWaste cmds = length df.
Proof.
  intros cmds. unfold cmds. rewrite pool_samples_eq.
  split; [|split].
  - simpl. f_equal. rewrite map_flat_map. apply flat_map_ext_elem_of.
    intros s _. unfold sample_commands.
    rewrite app_nil_r, kinds_replicates_new_tips.
    fold (replicates (sort_values df) s).
    by rewrite (length_replicates_sorted _ sort_perm).
  - change (Comment "Sample pooling" :: ?l) with ([Comment "Sample pooling"] ++ l).
    rewrite count_kind_app.
    rewrite (count_kind_flat_map KFlush _ (fun _ => @nil unit)).
    + replace (length (flat_map _ _)) with 0%nat
        by (induction (unique _); simpl; done).
      reflexivity.
    + intros s. unfold sample_commands. rewrite app_nil_r.
      rewrite (count_kind_flat_map KFlush _ (fun _ => @nil unit)) by done.
      induction (filter _ _); simpl; done.
  - change (Comment "Sample pooling" :: ?l) with ([Comment "Sample pooling"] ++ l).
    rewrite count_kind_app.
    rewrite (count_kind_flat_map KWaste _ (replicates (sort_values df))).
    + fold (visit_order (sort_values df)).
      rewrite (Permutation_length (visit_order_perm _)).
      by rewrite (Permutation_length (sort_perm df)).
    + intros s. unfold sample_commands. rewrite app_nil_r.
      rewrite (count_kind_flat_map KWaste _ (fun x => [x])) by done.
      by rewrite length_flat_map_singleton.
Qed.

Lemma length_replicate_commands new_tips r :
  length (replicate_commands volume liq_cls new_tips r) = 3%nat.
Proof. reflexivity. Qed.

Lemma length_flat_map_replicates new_tips (rows : list PoolRow) :
  length (flat_map (replicate_commands volume liq_cls new_tips) rows)
  = (3 * length rows)%nat.
Proof.
  induction rows as [|r rows IH]; [done|].
  cbn [flat_map]. rewrite length_app, IH, length_replicate_commands. simpl. lia.
Qed.

Lemma length_flat_map_samples new_tips (l : list PoolRow) (names : list string) :
  length (flat_map (sample_commands volume liq_cls new_tips l) names)
  = (3 * length (flat_map (replicates l) names)
     + (if new_tips then 0 else length names))%nat.
Proof.
  induction names as [|s names IH]; [by destruct new_tips|].
  cbn [flat_map]. rewrite !length_app, IH. unfold sample_commands at 1.
  rewrite length_app, length_flat_map_replicates. fold (replicates l s).
  destruct new_tips; simpl; lia.
Qed.

(** X7. The worklist of [pool_samples] on an empty [gwl] has one Comment,
    three commands for every row of the frame and, without new tips between
    replicates, one more for every distinct sample. *)
Theorem X7_worklist_length new_tips (df : list PoolRow) :
  length (pool_samples sort_values volume liq_cls new_tips df [])
  = (1 + 3 * length df
     + (if new_tips then 0 else length (unique (map sample_of df))))%nat.
Proof.
  rewrite pool_samples_eq. simpl. rewrite length_flat_map_samples.
  fold (visit_order (sort_values df)).
  rewrite (Permutation_length (visit_order_perm _)).
  rewrite (Permutation_length (sort_perm df)), samples_sorted.
  destruct new_tips; lia.
Qed.

End WorklistMore.

(** ** [main]: which runs give a worklist *)

Section MainMore.

Variable get_wells : string -> option Z.
Variable get_labware : string -> result unit.
Variable get_labware_wells : string -> result PyVal.
Variable sort_values : list PoolRow -> list PoolRow.

Local Abbreviation run := (main get_wells get_labware get_labware_wells sort_values).
Local Abbreviation pooled df :=
  (filter (fun r : Row => Call r ∈ ["success"; "pass"; "include"]) df).

(** The run when the included rows fit on the destination labware. *)
Lemma main_fits (args : Args) (df : list Row) positions :
  get_wells (dest_type args) = Some positions ->
  0 < positions ->
  Z.of_nat (length (pooled df)) < positions ->
  run args df
  = ([], match check_rack_labels_frame (column_role args)
                 (zip_with (placed positions (dest_name args) (dest_type args))
                           (pooled df)
                           (sample_register ∅ (map Sample (pooled df)))) with
         | Raise e => Raise e
         | Ok df_samp =>
             match get_labware (dest_type args) with
             | Raise e => Raise e
             | Ok _ =>
                 match get_labware_wells (dest_type args) with
                 | Raise e => Raise e
                 | Ok n_wells =>
                     if is_str_384 n_wells
                     then Raise (NameError "reorder_384well")
                     else Ok (pool_samples sort_values (arg_volume args)
                                (liq_cls_arg args) (new_tips_arg args) df_samp [])
                 end
             end
         end).
Proof.
  intros Hw Hpos Hlen. unfold main.
  rewrite (add_dest_fits _ _ _ _ _ _ Hw Hpos Hlen). simpl.
  destruct (check_rack_labels_frame _ _); simpl; [|done].
  destruct (get_labware _); simpl; [|done].
  destruct (get_labware_wells _) as [n_wells|]; simpl; [|done].
  by destruct (is_str_384 n_wells).
Qed.

Lemma main_overflow (args : Args) (df : list Row) positions :
  get_wells (dest_type args) = Some positions ->
  0 < positions ->
  positions <= Z.of_nat (length (pooled df)) ->
  run args df = ([warning_multiple_plates], Raise (NameError "orig_dest_labware")).
Proof.
  intros Hw Hpos Hlen. unfold main.
  by rewrite (add_dest_overflow _ _ _ _ _ _ Hw Hpos Hlen).
Qed.

Lemma length_placed positions dest_labware dest_type (rows : list Row) :
  length (zip_with (placed positions dest_labware dest_type) rows
                   (sample_register ∅ (map Sample rows))) = length rows.
Proof.
  rewrite length_zip_with_l_eq; [done|].
  by rewrite length_sample_register, length_map.
Qed.

(** X8. When a run on a destination labware with at least one well returns
    a worklist, it has printed nothing, there are fewer included rows than
    the labware has wells, and the worklist has one Aspirate and one Dispense
    for each included row; rows that are not included add nothing. *)
Theorem X8_main_worklist_one_transfer_per_included_row
    (args : Args) (df : list Row) positions out cmds :
  (forall l, sort_values l ≡ₚ l) ->
  get_wells (dest_type args) = Some positions ->
  1 <= positions ->
  run args df = (out, Ok cmds) ->
  out = [] /\
  Z.of_nat (length (pooled df)) < positions /\
  count_kind KAspirate cmds = length (pooled df) /\
  count_kind KDispense cmds = length (pooled df).
Proof.
  intros Hperm Hw Hpos Hrun.
  destruct (Z_lt_le_dec (Z.of_nat (length (pooled df))) positions) as [Hlt|Hge].
  - rewrite (main_fits _ _ _ Hw) in Hrun by lia.
    destruct (check_rack_labels_frame _ _) as [df_samp|] eqn:Hcrl; [|discriminate].
    destruct (get_labware _); [|discriminate].
    destruct (get_labware_wells _) as [n_wells|]; [|discriminate].
    destruct (is_str_384 n_wells); [discriminate|].
    injection Hrun as <- <-. split; [done|]. split; [done|].
    rewrite !(count_transfers_pool_samples _ _ _ _ _ _ Hperm) by auto.
    by rewrite (check_rack_labels_frame_length _ _ _ Hcrl), length_placed.
  - rewrite (main_overflow _ _ _ Hw) in Hrun by lia. discriminate.
Qed.

(** X9. A run with at least as many included rows as the destination
    labware has wells gives no worklist: it prints the warning and raises
    [NameError]; 96 included rows for a 96-well plate already do. *)
Theorem X9_main_full_plate_raises (args : Args) (df : list Row) positions :
  get_wells (dest_type args) = Some positions ->
  1 <= positions ->
  positions <= Z.of_nat (length (pooled df)) ->
  run args df = ([warning_multiple_plates], Raise (NameError "orig_dest_labware")).
Proof. intros Hw Hpos Hlen. apply (main_overflow _ _ _ Hw); lia. Qed.



End MainMore.

(** ** The loaders *)

Section Loaders.

Local Open Scope string_scope.

Lemma endswith_spec (s suffix : string) :
  endswith s suffix = true <-> exists p, s = p ++ suffix.
Proof.
  induction s as [|c s IH]; cbn [endswith].
  - rewrite orb_false_r, String.eqb_eq. split.
    + intros <-. by exists "".
    + intros ([|c p] & Hp); simpl in Hp; [done|discriminate].
  - rewrite orb_true_iff, String.eqb_eq, IH. split.
    + intros [<-|(p & ->)]; [by exists ""|by exists (String c p)].
    + intros ([|c' p] & Hp); simpl in Hp; [by left|].
      injection Hp as -> ->. right. by exists p.
Qed.

Lemma endswith_tail (s suffix : string) (c : ascii) :
  endswith s (String c suffix) = true -> endswith s suffix = true.
Proof.
  rewrite !endswith_spec. intros (p & ->). exists (p ++ String c "").
  induction p as [|c' p IH]; [done|].
  change (String c' (p ++ String c suffix)
          = String c' ((p ++ String c "") ++ suffix)).
  by rewrite IH.
Qed.

Lemma reader_for_ok (msg msg' : string) (fmt : option string) (r : Reader) :
  reader_for msg fmt = Ok r -> reader_for msg' fmt = Ok r.
Proof.
  destruct fmt as [f|]; simpl; [|discriminate].
  destruct (String.eqb f "csv"); [done|].
  destruct (String.eqb f "tab"); [done|].
  destruct (String.eqb f "excel"); [done|discriminate].
Qed.

(** X12. [map2df] reads every file that [sample2df] reads, with the same
    reader, for every file name and every format argument; it takes more,
    since its last test is on the ending ['xlsx'] without the dot; and
    without a file name it returns [None] before looking at the format. *)
Theorem X12_map2df_reads_what_sample2df_reads :
  (forall file fmt r,
     sample2df_reader file fmt = Ok r ->
     map2df_reader (Some file) fmt = Some (Ok r)) /\
  (sample2df_reader "pool_xlsx" None
   = Raise (ValueError "Sample file is not in a usable format") /\
   map2df_reader (Some "pool_xlsx") None = Some (Ok ReadExcel)) /\
  (forall fmt, map2df_reader None fmt = None).
Proof.
  split; [|split; [split; reflexivity|done]].
  intros file fmt r. unfold sample2df_reader, map2df_reader. intros H. f_equal.
  unfold sample_file_format, map_file_format in *.
  destruct fmt as [f|]; [by eapply reader_for_ok|].
  destruct (endswith file ".csv"); [by eapply reader_for_ok|].
  destruct (endswith file ".txt"); [by eapply reader_for_ok|].
  destruct (endswith file ".xls"); cbn [orb] in *; [by eapply reader_for_ok|].
  destruct (endswith file ".xlsx") eqn:E; [|discriminate].
  rewrite (endswith_tail _ _ _ E). by eapply reader_for_ok.
Qed.

Lemma lower_char_idem c : lower_char (lower_char c) = lower_char c.
Proof. destruct c as [[] [] [] [] [] [] [] []]; reflexivity. Qed.

Lemma lower_idem s : lower (lower s) = lower s.
Proof. induction s as [|c s IH]; simpl; [done|]. by rewrite lower_char_idem, IH. Qed.

(** X13. With a format argument both loaders decide on the argument alone,
    without regard to its case and without looking at the file name. *)
Theorem X13_explicit_format_decides (file file' f : string) :
  sample2df_reader file (Some f) = sample2df_reader file' (Some (lower f)) /\
  map2df_reader (Some file) (Some f) = map2df_reader (Some file') (Some (lower f)).
Proof.
  unfold sample2df_reader, map2df_reader. simpl. by rewrite lower_idem.
Qed.

(** X14. [check_include_column] lets the five values success, include, pass,
    fail and skip through and stops on any other value with [NameError] (the
    message of its [assert] reads the unbound name [msg]); of the rows that
    get through, [main] pools exactly those that are neither fail nor skip,
    and every row [main] pools gets through. *)
Theorem X14_include_column :
  (forall x, x ∉ psbl_vals -> check_include_column x = Raise (NameError "msg")) /\
  (forall r : Row, check_include_column (Call r) = Ok tt ->
     (included r <-> Call r <> "fail" /\ Call r <> "skip")) /\
  (forall r : Row, included r -> check_include_column (Call r) = Ok tt).
Proof.
  unfold check_include_column, included, psbl_vals. split; [|split].
  - intros x Hx. by destruct (decide _).
  - intros r. destruct (decide _) as [Hin|]; [intros _|discriminate].
    rewrite !elem_of_cons, elem_of_nil in *.
    split.
    + intros [->|[->|[->|[]]]]; split; discriminate.
    + intros [Hf Hs].
      destruct Hin as [E|[E|[E|[E|[E|[]]]]]]; rewrite E in *;
        first [by left | by right; left | by right; right; left | congruence].
  - intros r Hin. destruct (decide _) as [|Hout]; [done|].
    exfalso. apply Hout. rewrite !elem_of_cons, elem_of_nil in *. tauto.
Qed.

End Loaders.

(** ** [filter_map] *)

Section DropDuplicates.

Context {A K : Type} `{EqDecision K} (key : A -> K).

Lemma drop_duplicates_sublist (l : list A) : drop_duplicates key l `sublist_of` l.
Proof.
  induction l as [|x l IH]; simpl; [done|].
  apply sublist_skip. etrans; [apply sublist_filter|done].
Qed.

Lemma drop_duplicates_keeps_keys (l : list A) (x : A) :
  x ∈ l -> exists y, y ∈ drop_duplicates key l /\ key y = key x.
Proof.
  induction l as [|a l IH]; [by intros ?%elem_of_nil|].
  intros [->|Hx]%elem_of_cons; simpl.
  - exists a. split; [by left|done].
  - destruct (IH Hx) as (y & Hy & Hk).
    destruct (decide (key y = key a)) as [E|Hne].
    + exists a. split; [by left|congruence].
    + exists y. split; [|done]. right. by apply list_elem_of_filter.
Qed.

Lemma drop_duplicates_NoDup_keys (l : list A) :
  NoDup (map key (drop_duplicates key l)).
Proof.
  induction l as [|x l IH]; simpl; [constructor|].
  constructor.
  - change (map key ?l) with (key <$> l). rewrite list_elem_of_fmap.
    intros (y & Hk & Hy). apply list_elem_of_filter in Hy as [Hne _]. congruence.
  - eapply sublist_NoDup; [exact IH|].
    change (map key ?l) with (key <$> l). apply fmap_sublist, sublist_filter.
Qed.

End DropDuplicates.

Section FilterMapFacts.

Context {Columns : Type}.
Implicit Types (df_map : list (MapRow Columns)) (df_samp : list PoolRow).

Lemma elem_of_merge_inner df_map (pooled : list PostPool) m d :
  (m, d) ∈ merge_inner df_map pooled <->
  m ∈ df_map /\ d ∈ pooled /\ pooled_sample d = SampleID m.
Proof.
  unfold merge_inner. rewrite elem_of_flat_map. split.
  - intros (m' & Hm & Hd). change (map ?f ?l) with (f <$> l) in Hd.
    apply list_elem_of_fmap in Hd as (d' & [= -> ->] & Hd).
    apply list_elem_of_filter in Hd as [Hk Hd]. done.
  - intros (Hm & Hd & Hk). exists m. split; [done|].
    change (map ?f ?l) with (f <$> l). apply list_elem_of_fmap.
    exists d. split; [done|]. by apply list_elem_of_filter.
Qed.

(** X15. Every row of the table [filter_map] returns joins a row of the
    mapping table with the destination of a row of the sample frame that has
    its [#SampleID] as sample name; and every sample that is in both tables
    is in the result with each of its destinations, beside a mapping row of
    that [#SampleID]. *)
Theorem X15_filter_map_joins_pooled_samples df_map df_samp :
  (forall m d, (m, d) ∈ filter_map df_map df_samp ->
     m ∈ df_map /\ pooled_sample d = SampleID m /\
     exists r, r ∈ df_samp /\ d = post_pool r) /\
  (forall m r, m ∈ df_map -> r ∈ df_samp -> sample_of r = SampleID m ->
     exists m', m' ∈ df_map /\ SampleID m' = SampleID m /\
                (m', post_pool r) ∈ filter_map df_map df_samp).
Proof.
  unfold filter_map. split.
  - intros m d [Hm [Hd Hk]]%elem_of_merge_inner.
    split; [|split; [done|]].
    + eapply elem_of_sublist; [exact Hm|]. apply drop_duplicates_sublist.
    + assert (d ∈ map post_pool df_samp) as Hd'
        by (eapply elem_of_sublist; [exact Hd|]; apply drop_duplicates_sublist).
      change (map ?f ?l) with (f <$> l) in Hd'.
      apply list_elem_of_fmap in Hd' as (r & -> & Hr). eauto.
  - intros m r Hm Hr Hs.
    destruct (drop_duplicates_keeps_keys SampleID _ _ Hm) as (m' & Hm' & Hk).
    assert (post_pool r ∈ map post_pool df_samp) as Hd.
    { change (map ?f ?l) with (f <$> l). apply list_elem_of_fmap. eauto. }
    destruct (drop_duplicates_keeps_keys (fun d => d) _ _ Hd) as (d & Hd' & ->).
    exists m'. split; [|split; [done|]].
    + eapply elem_of_sublist; [exact Hm'|]. apply drop_duplicates_sublist.
    + apply elem_of_merge_inner. repeat split; try done. simpl. congruence.
Qed.

Lemma one_destination_per_sample df_samp (s : string) :
  (forall r1 r2, r1 ∈ df_samp -> r2 ∈ df_samp ->
     sample_of r1 = sample_of r2 -> assignment r1 = assignment r2) ->
  (length (filter (fun d => pooled_sample d = s)
                  (drop_duplicates (fun d => d) (map post_pool df_samp)))
   <= 1)%nat.
Proof.
  intros Hshare.
  set (pooled := drop_duplicates (fun d => d) (map post_pool df_samp)).
  assert (Hnd : NoDup (filter (fun d => pooled_sample d = s) pooled)).
  { apply NoDup_filter.
    pose proof (drop_duplicates_NoDup_keys (fun d : PostPool => d)
                  (map post_pool df_samp)) as H.
    by rewrite map_id in H. }
  assert (Heq : forall d1 d2,
            d1 ∈ filter (fun d => pooled_sample d = s) pooled ->
            d2 ∈ filter (fun d => pooled_sample d = s) pooled -> d1 = d2).
  { intros d1 d2 [H1 Hd1]%list_elem_of_filter [H2 Hd2]%list_elem_of_filter.
    assert (forall d, d ∈ pooled -> exists r, r ∈ df_samp /\ d = post_pool r) as Hsrc.
    { intros d Hd.
      assert (d ∈ map post_pool df_samp) as Hd'
        by (eapply elem_of_sublist; [exact Hd|]; apply drop_duplicates_sublist).
      change (map ?f ?l) with (f <$> l) in Hd'.
      apply list_elem_of_fmap in Hd' as (r & -> & Hr). eauto. }
    destruct (Hsrc _ Hd1) as (r1 & Hr1 & ->).
    destruct (Hsrc _ Hd2) as (r2 & Hr2 & ->).
    simpl in H1, H2.
    assert (sample_of r1 = sample_of r2) as Hs by congruence.
    pose proof (Hshare r1 r2 Hr1 Hr2 Hs) as [= ? ? ?].
    unfold post_pool. congruence. }
  destruct (filter _ pooled) as [|d1 [|d2 l]]; simpl; try lia.
  exfalso. apply NoDup_cons in Hnd as [Hnot _]. apply Hnot.
  rewrite (Heq d1 d2); [by left|by left|by right; left].
Qed.

(** X16. When the rows of one sample share their destination (as in the
    frames of [add_dest]), the table [filter_map] returns has every
    [#SampleID] at most once, and its mapping rows are rows of the mapping
    table in their order there. *)
Theorem X16_filter_map_one_row_per_sample df_map df_samp :
  (forall r1 r2, r1 ∈ df_samp -> r2 ∈ df_samp ->
     sample_of r1 = sample_of r2 -> assignment r1 = assignment r2) ->
  map fst (filter_map df_map df_samp) `sublist_of` df_map /\
  NoDup (map (fun row => SampleID (fst row)) (filter_map df_map df_samp)).
Proof.
  intros Hshare.
  assert (Hsub : map fst (filter_map df_map df_samp)
                 `sublist_of` drop_duplicates SampleID df_map).
  { unfold filter_map, merge_inner.
    induction (drop_duplicates SampleID df_map) as [|m l IH]; simpl; [done|].
    rewrite map_app, map_map. simpl.
    pose proof (one_destination_per_sample df_samp (SampleID m) Hshare) as Hone.
    destruct (filter _ _) as [|d [|d' ds]]; simpl in *; try lia.
    - by apply sublist_cons.
    - by apply sublist_skip. }
  split.
  - etrans; [exact Hsub|apply drop_duplicates_sublist].
  - rewrite <- (map_map fst SampleID).
    eapply sublist_NoDup; [apply (drop_duplicates_NoDup_keys SampleID df_map)|].
    change (map ?f ?l) with (f <$> l). apply fmap_sublist.
    change (fst <$> ?l) with (map fst l). exact Hsub.
Qed.

End FilterMapFacts.

(** ** The further properties on concrete runs *)

Lemma X1_witness :
  add_dest wells_table rows_ABCD "Pooled DNA plate" "4 Well Test Plate" 1
  = ([warning_multiple_plates], Raise (NameError "orig_dest_labware")).
Proof.
  refine (proj2 (proj2 (X1_add_dest_returns_iff_fewer_rows_than_wells wells_table
            rows_ABCD "Pooled DNA plate" "4 Well Test Plate" 1 4 _ _)) _).
  - reflexivity.
  - lia.
  - simpl. lia.
Defined.

Lemma X3_witness : 2 ∈ map TECAN_dest_target_position frame_ABA.
Proof.
  refine (proj2 (proj2 (X3_add_dest_fills_first_wells wells_table rows_ABA
            "Pooled DNA plate" pcr96 1 96 frame_ABA _ _ _) 2) _).
  - reflexivity.
  - lia.
  - vm_compute. reflexivity.
  - vm_compute. split; discriminate.
Defined.

Lemma X6_witness :
  count_kind KWaste (pool_samples insertion_sort_values 30 "X" true frame_ABA [])
  = length frame_ABA.
Proof.
  exact (proj2 (proj2 (X6_new_tips_waste_after_every_replicate
           insertion_sort_values insertion_sort_perm 30 "X" frame_ABA))).
Defined.

Lemma X7_witness :
  length (pool_samples insertion_sort_values 30 "X" false frame_ABA [])
  = (1 + 3 * length frame_ABA + length (unique (map sample_of frame_ABA)))%nat.
Proof.
  exact (X7_worklist_length insertion_sort_values insertion_sort_perm
           30 "X" false frame_ABA).
Defined.

Lemma X8_witness :
  count_kind KAspirate worklist_ABA
  = length (filter (fun r : Row => Call r ∈ ["success"; "pass"; "include"]) rows_ABA).
Proof.
  refine (proj1 (proj2 (proj2 (X8_main_worklist_one_transfer_per_included_row
            wells_table (fun _ => Ok tt) (fun _ => Ok (PyStr "96"))
            insertion_sort_values default_args rows_ABA 96 [] worklist_ABA
            insertion_sort_perm _ _ _)))).
  - reflexivity.
  - lia.
  - vm_compute. reflexivity.
Defined.

Lemma X9_witness :
  example_run small_plate_args rows_ABCD
  = ([warning_multiple_plates], Raise (NameError "orig_dest_labware")).
Proof.
  refine (X9_main_full_plate_raises wells_table (fun _ => Ok tt)
            (fun _ => Ok (PyStr "96")) insertion_sort_values
            small_plate_args rows_ABCD 4 _ _ _).
  - reflexivity.
  - lia.
  - vm_compute. discriminate.
Defined.



Lemma frame_ABA_shares_assignment :
  forall r1 r2, r1 ∈ frame_ABA -> r2 ∈ frame_ABA ->
    sample_of r1 = sample_of r2 -> assignment r1 = assignment r2.
Proof.
  intros r1 r2 H1 H2.
  unfold frame_ABA in *. rewrite !elem_of_cons, elem_of_nil in H1, H2.
  destruct H1 as [->|[->|[->|[]]]]; destruct H2 as [->|[->|[->|[]]]];
    (reflexivity || (intros E; discriminate E)).
Defined.

Lemma X16_witness :
  NoDup (map (fun row : MapRow nat * PostPool => SampleID (fst row))
             (filter_map map_table frame_ABA)).
Proof.
  exact (proj2 (X16_filter_map_one_row_per_sample map_table frame_ABA
                  frame_ABA_shares_assignment)).
Defined.
